(** * SAT practice application: the test session engine, its persistence
      and its analytics, embedded from [satprepapp.py].

    The Qt widgets are reduced to what the engine reads back from them:
    which page of the stacked widget is current, whether the one-second
    timer is running, which radio button is checked and what the user
    answers to a yes/no message box.  Files are part of the state
    ([progress.json]) or of the environment (the two question banks). *)

From Stdlib Require Import ZArith Floats.PrimFloat Numbers.Cyclic.Int63.Uint63.
From Stdlib Require Import String Ascii.
From stdpp Require Import base gmap strings list pretty.

Local Open Scope string_scope.
Local Open Scope nat_scope.

(** ** Sections, phases and pages *)

Inductive section := RW | MATH.

Inductive phase := PhaseRW | PhaseMATH | PhaseBREAK | PhaseMENU.

Inductive widget :=
  menu_widget | test_widget | break_widget | review_widget | analytics_widget.

#[global] Instance section_eq_dec : EqDecision section.
Proof. solve_decision. Defined.
#[global] Instance phase_eq_dec : EqDecision phase.
Proof. solve_decision. Defined.
#[global] Instance widget_eq_dec : EqDecision widget.
Proof. solve_decision. Defined.

(** [test_phase] is set to the section's own name when a section starts. *)
Definition phase_of (sec : section) : phase :=
  match sec with RW => PhaseRW | MATH => PhaseMATH end.

(** ** Questions

    A question is a JSON object; a field is [None] when the key is absent.
    The banks are taken to hold a string (a list of strings for the
    options) under each key they have: a key present with the value
    [null] is not represented. *)

Record question := Question {
  q_id : option string;
  q_question : option string;
  q_options : option (list string);
  q_answer : option string;
  q_category : option string }.

#[global] Instance question_eq_dec : EqDecision question.
Proof. solve_decision. Defined.

(** [key in q] *)
Definition has_key (key : string) (q : question) : bool :=
  if String.eqb key "id" then bool_decide (is_Some (q_id q))
  else if String.eqb key "question" then bool_decide (is_Some (q_question q))
  else if String.eqb key "options" then bool_decide (is_Some (q_options q))
  else if String.eqb key "answer" then bool_decide (is_Some (q_answer q))
  else if String.eqb key "category" then bool_decide (is_Some (q_category q))
  else false.

(** [all(key in q for key in ['id', 'question', 'options', 'answer'])] *)
Definition is_valid (q : question) : bool :=
  forallb (fun key => has_key key q) ["id"; "question"; "options"; "answer"].

(** [q.get('category', 'Uncategorized')] *)
Definition category_of (q : question) : string :=
  default "Uncategorized" (q_category q).

(** ** Configuration and environment *)

Record config := Config {
  total_questions : section -> Z;
  default_time_limits : section -> Z;
  break_duration_minutes : option Z }.

(** The defaults written by [load_config] when no file exists. *)
Definition default_config_data : config :=
  {| total_questions := fun sec => match sec with RW => 27 | MATH => 22 end;
     default_time_limits := fun sec => match sec with RW => 32 | MATH => 35 end;
     break_duration_minutes := Some 10 |}%Z.

(** What [open(path)] and [json.load] find for a question bank. *)
Inductive bank_file :=
  | FileNotFound
  | InvalidJSON
  | BankJSON (questions : option (list question)).

(** The environment of one engine call: the two bank files as they are on
    disk at that moment, the draws of the random generator, the clock. *)
Record world := World {
  bank : section -> bank_file;
  draws : list nat;
  clock : float }.

(** ** Question bank loader *)

(** [random.sample(population, k)] for [0 <= k <= len(population)]: [k]
    elements chosen without replacement, in the order drawn.  Each draw
    picks a position of what is left of the population. *)
Fixpoint random_sample {A} (rnd : list nat) (population : list A) (k : nat) : list A :=
  match k with
  | O => []
  | S k' =>
      let j := hd 0 rnd `mod` length population in
      match population !! j with
      | Some x => x :: random_sample (tl rnd) (delete j population) k'
      | None => []
      end
  end.

Definition load_questions (cfg : config) (w : world) (sec : section)
    (for_analytics : bool) : list question :=
  match bank w sec with
  | FileNotFound => []
  | InvalidJSON => []
  | BankJSON data =>
      let questions := default [] data in
      let valid_questions := filter (fun q => is_valid q) questions in
      if bool_decide (valid_questions = []) then []
      else if for_analytics then valid_questions
      else
        let total_needed := total_questions cfg sec in
        let k := Z.min (Z.of_nat (length valid_questions)) total_needed in
        (* a negative sample size raises ValueError, caught by the last handler *)
        if (k <? 0)%Z then []
        else random_sample (draws w) valid_questions (Z.to_nat k)
  end.

(** ** Python dictionaries

    A [dict] keeps its keys in insertion order and holds each key once.
    The keys of an answers dictionary are the [int] indices written by
    [save_answer], or the [str] keys that [json.load] produces. *)

Inductive pykey := KInt (i : nat) | KStr (s : string).

#[global] Instance pykey_eq_dec : EqDecision pykey.
Proof. solve_decision. Defined.

Section Dict.
Context {K V : Type} `{EqDecision K}.

(** [d.get(k)] *)
Fixpoint dict_get (k : K) (d : list (K * V)) : option V :=
  match d with
  | [] => None
  | (k', v) :: d' => if decide (k = k') then Some v else dict_get k d'
  end.

(** [d[k] = v] *)
Fixpoint dict_set (k : K) (v : V) (d : list (K * V)) : list (K * V) :=
  match d with
  | [] => [(k, v)]
  | (k', v') :: d' =>
      if decide (k = k') then (k, v) :: d' else (k', v') :: dict_set k v d'
  end.
End Dict.

Abbreviation pydict := (list (pykey * string)).

(** A dictionary with exactly the keys ["RW"] and ["MATH"]. *)
Record per_section (A : Type) := PerSection { at_RW : A; at_MATH : A }.
Arguments PerSection {A} _ _.
Arguments at_RW {A} _.
Arguments at_MATH {A} _.

Definition sec_get {A} (sec : section) (p : per_section A) : A :=
  match sec with RW => at_RW p | MATH => at_MATH p end.

Definition sec_set {A} (sec : section) (v : A) (p : per_section A) : per_section A :=
  match sec with
  | RW => PerSection v (at_MATH p)
  | MATH => PerSection (at_RW p) v
  end.

(** [enumerate(l)] *)
Fixpoint enumerate_from {A} (n : nat) (l : list A) : list (nat * A) :=
  match l with
  | [] => []
  | x :: l' => (n, x) :: enumerate_from (S n) l'
  end.

Definition enumerate {A} (l : list A) : list (nat * A) := enumerate_from 0 l.

(** ** JSON

    An object of [progress.json] is a sequence of members whose names are
    strings.  [json.dump] writes an [int] key as its decimal numeral;
    [json.load] builds a [dict] with [str] keys, a repeated name keeping
    the place of its first member and the value of its last. *)

Abbreviation json_object := (list (string * string)).

Definition key_str (k : pykey) : string :=
  match k with
  | KInt i => pretty i
  | KStr s => s
  end.

Definition json_dump_dict (d : pydict) : json_object :=
  map (fun kv => (key_str kv.1, kv.2)) d.

Definition json_load_dict (o : json_object) : pydict :=
  foldl (fun d kv => dict_set (KStr kv.1) kv.2 d) [] o.

(** ** Python numbers

    The analytics mix [int] (the defaults, a score of an empty bank) and
    [float] (every quotient).  An [int] operand of a mixed operation is
    converted to [float].  The conversion and the quotient below are
    Python's for magnitudes under [2^53], where every [int] is a [float]:
    all that the program computes with, counts of questions and of tests.
    Beyond, Python rounds an [int] and the exact quotient of two [int]s
    once, which these definitions do not follow. *)

Inductive pynum := PyInt (z : Z) | PyFloat (f : float).

Definition float_of_Z (z : Z) : float :=
  if (z <? 0)%Z then PrimFloat.opp (PrimFloat.of_uint63 (Uint63.of_Z (- z)))
  else PrimFloat.of_uint63 (Uint63.of_Z z).

Definition to_float (a : pynum) : float :=
  match a with
  | PyInt z => float_of_Z z
  | PyFloat f => f
  end.

Definition py_add (a b : pynum) : pynum :=
  match a, b with
  | PyInt x, PyInt y => PyInt (x + y)
  | _, _ => PyFloat (PrimFloat.add (to_float a) (to_float b))
  end.

Definition py_mul (a b : pynum) : pynum :=
  match a, b with
  | PyInt x, PyInt y => PyInt (x * y)
  | _, _ => PyFloat (PrimFloat.mul (to_float a) (to_float b))
  end.

(** [a / b], used only behind a test that [b] is positive. *)
Definition py_truediv (a b : pynum) : pynum :=
  PyFloat (PrimFloat.div (to_float a) (to_float b)).

Definition py_lt (a b : pynum) : bool :=
  match a, b with
  | PyInt x, PyInt y => (x <? y)%Z
  | _, _ => PrimFloat.ltb (to_float a) (to_float b)
  end.

(** [max(a, b)] returns its first argument unless the second is greater. *)
Definition py_max (a b : pynum) : pynum := if py_lt a b then b else a.

(** ** Analytics record

    [progress_over_time] (a date and two rounded percentages appended per
    test) is left out: nothing in the engine reads it back. *)

Record analytics_data := Analytics {
  tests_taken : Z;
  average_scores : per_section pynum;
  best_scores : per_section pynum;
  weakest_categories : per_section (gmap string Z) }.

(** The record [load_analytics] builds when there is no analytics file. *)
Definition default_analytics : analytics_data :=
  {| tests_taken := 0;
     average_scores := PerSection (PyInt 0) (PyInt 0);
     best_scores := PerSection (PyInt 0) (PyInt 0);
     weakest_categories := PerSection ∅ ∅ |}.

Record score_data := ScoreData { correct : Z; total : Z }.

(** ** Session state

    The two indices start at 0, [next_question] adds one and
    [prev_question] subtracts one from a positive index only, so they are
    natural numbers. *)

Record state_dict := StateDict {
  current_section : option section;
  current_module : option string;
  rw_index : nat;
  math_index : nat;
  user_answers : per_section pydict;
  start_time : option float;
  elapsed : Z;
  test_phase : option phase }.

(** The dictionary built by [__init__]. *)
Definition initial_test_state : state_dict :=
  {| current_section := None; current_module := None;
     rw_index := 0; math_index := 0;
     user_answers := PerSection [] [];
     start_time := None; elapsed := 0; test_phase := None |}.

(** [progress.json]: the members that [load_progress] supplies a default
    for may be absent. *)
Record json_test_state := JsonTestState {
  js_current_section : option section;
  js_current_module : option string;
  js_rw_index : option nat;
  js_math_index : option nat;
  js_user_answers : option (per_section json_object);
  js_start_time : option float;
  js_elapsed : Z;
  js_test_phase : option phase }.

Record json_progress := JsonProgress {
  jp_test_state : option json_test_state;
  jp_questions : option (list question);
  jp_remaining_seconds : option Z }.

Inductive progress_file :=
  | NoProgress
  | CorruptProgress
  | Progress (data : json_progress).

(** The application object: the fields of [SATPracticeApp] that the engine
    reads, and the progress file it owns. *)
Record app := App {
  analytics : analytics_data;
  test_state : state_dict;
  questions : list question;
  remaining_seconds : Z;
  timer : bool;
  stacked : widget;
  progress : progress_file }.

(** Field assignments. *)

Definition set_current_section (v : option section) (t : state_dict) : state_dict :=
  StateDict v (current_module t) (rw_index t) (math_index t) (user_answers t)
    (start_time t) (elapsed t) (test_phase t).
Definition set_rw_index (v : nat) (t : state_dict) : state_dict :=
  StateDict (current_section t) (current_module t) v (math_index t) (user_answers t)
    (start_time t) (elapsed t) (test_phase t).
Definition set_math_index (v : nat) (t : state_dict) : state_dict :=
  StateDict (current_section t) (current_module t) (rw_index t) v (user_answers t)
    (start_time t) (elapsed t) (test_phase t).
Definition set_user_answers (v : per_section pydict) (t : state_dict) : state_dict :=
  StateDict (current_section t) (current_module t) (rw_index t) (math_index t) v
    (start_time t) (elapsed t) (test_phase t).
Definition set_start_time (v : option float) (t : state_dict) : state_dict :=
  StateDict (current_section t) (current_module t) (rw_index t) (math_index t)
    (user_answers t) v (elapsed t) (test_phase t).
Definition set_elapsed (v : Z) (t : state_dict) : state_dict :=
  StateDict (current_section t) (current_module t) (rw_index t) (math_index t)
    (user_answers t) (start_time t) v (test_phase t).
Definition set_test_phase (v : option phase) (t : state_dict) : state_dict :=
  StateDict (current_section t) (current_module t) (rw_index t) (math_index t)
    (user_answers t) (start_time t) (elapsed t) v.

Definition set_analytics (v : analytics_data) (s : app) : app :=
  App v (test_state s) (questions s) (remaining_seconds s) (timer s) (stacked s) (progress s).
Definition set_test_state (v : state_dict) (s : app) : app :=
  App (analytics s) v (questions s) (remaining_seconds s) (timer s) (stacked s) (progress s).
Definition set_questions (v : list question) (s : app) : app :=
  App (analytics s) (test_state s) v (remaining_seconds s) (timer s) (stacked s) (progress s).
Definition set_remaining_seconds (v : Z) (s : app) : app :=
  App (analytics s) (test_state s) (questions s) v (timer s) (stacked s) (progress s).
Definition set_timer (v : bool) (s : app) : app :=
  App (analytics s) (test_state s) (questions s) (remaining_seconds s) v (stacked s) (progress s).
Definition set_stacked (v : widget) (s : app) : app :=
  App (analytics s) (test_state s) (questions s) (remaining_seconds s) (timer s) v (progress s).
Definition set_progress (v : progress_file) (s : app) : app :=
  App (analytics s) (test_state s) (questions s) (remaining_seconds s) (timer s) (stacked s) v.

(** [self.test_state[...] = ...] *)
Definition upd_test_state (f : state_dict -> state_dict) (s : app) : app :=
  set_test_state (f (test_state s)) s.

(** ** Session state store *)

Definition json_dump_test_state (t : state_dict) : json_test_state :=
  {| js_current_section := current_section t;
     js_current_module := current_module t;
     js_rw_index := Some (rw_index t);
     js_math_index := Some (math_index t);
     js_user_answers :=
       Some (PerSection (json_dump_dict (at_RW (user_answers t)))
                        (json_dump_dict (at_MATH (user_answers t))));
     js_start_time := start_time t;
     js_elapsed := elapsed t;
     js_test_phase := test_phase t |}.

(** The dictionary [json.load] returns for the ["test_state"] member, after
    the four [setdefault] calls of [load_progress]. *)
Definition json_load_test_state (j : json_test_state) : state_dict :=
  {| current_section := js_current_section j;
     current_module := js_current_module j;
     rw_index := default 0 (js_rw_index j);
     math_index := default 0 (js_math_index j);
     user_answers :=
       match js_user_answers j with
       | Some o => PerSection (json_load_dict (at_RW o)) (json_load_dict (at_MATH o))
       | None => PerSection [] []
       end;
     start_time := js_start_time j;
     elapsed := js_elapsed j;
     test_phase := js_test_phase j |}.

Definition save_progress (delete : bool) (s : app) : app :=
  if delete then set_progress NoProgress s
  else
    let data :=
      {| jp_test_state := Some (json_dump_test_state (test_state s));
         jp_questions := Some (questions s);
         jp_remaining_seconds := Some (remaining_seconds s) |} in
    set_progress (Progress data) s.

(** [reply] is the user's answer to "Previous test progress found. Resume?" *)
Definition load_progress (reply : bool) (s : app) : app :=
  match progress s with
  | NoProgress => s
  | CorruptProgress =>
      if reply then set_test_state initial_test_state (save_progress true s)
      else save_progress true s
  | Progress data =>
      if reply then
        let s1 :=
          match jp_test_state data with
          | Some j => set_test_state (json_load_test_state j) s
          | None => s
          end in
        let s2 := set_questions (default [] (jp_questions data)) s1 in
        set_remaining_seconds (default 0%Z (jp_remaining_seconds data)) s2
      else save_progress true s
  end.

(** ** Test session engine *)

Definition back_to_menu (s : app) : app :=
  let s := set_timer false s in
  let s := set_test_state
    {| current_section := None; current_module := None;
       rw_index := 0; math_index := 0;
       user_answers := PerSection [] [];
       start_time := None; elapsed := 0; test_phase := Some PhaseMENU |} s in
  let s := set_questions [] s in
  let s := save_progress true s in
  set_stacked menu_widget s.

Definition current_index (s : app) : nat :=
  if decide (current_section (test_state s) = Some RW)
  then rw_index (test_state s) else math_index (test_state s).

Definition set_current_index (val : nat) (s : app) : app :=
  let s :=
    if decide (current_section (test_state s) = Some RW)
    then upd_test_state (set_rw_index val) s
    else upd_test_state (set_math_index val) s in
  save_progress false s.

(** Of [show_question] only the guard changes the state; the rest fills
    the labels and the radio buttons.  It subscripts the current question
    by ["question"] and ["options"], which valid questions have: those are
    the only ones [load_questions] returns and [save_progress] writes. *)
Definition show_question (s : app) : app :=
  let idx := current_index s in
  if bool_decide (questions s = []) || bool_decide (length (questions s) ≤ idx)
  then back_to_menu s
  else s.

Definition start_test_section (cfg : config) (w : world) (sec : section)
    (resume : bool) (s : app) : app :=
  let s := upd_test_state (set_current_section (Some sec)) s in
  let s := upd_test_state (set_test_phase (Some (phase_of sec))) s in
  let run (s : app) : app :=
    let s := set_timer true s in
    let s := show_question s in
    let s := set_stacked test_widget s in
    save_progress false s in
  let to_menu (s : app) : app :=
    upd_test_state (set_test_phase (Some PhaseMENU)) (set_stacked menu_widget s) in
  if negb resume then
    let s := upd_test_state (set_start_time (Some (clock w))) s in
    let s := upd_test_state (set_elapsed 0) s in
    let s := set_questions (load_questions cfg w sec false) s in
    if bool_decide (questions s = []) then to_menu s
    else
      let s := set_remaining_seconds (default_time_limits cfg sec * 60) s in
      let s :=
        match sec with
        | RW => upd_test_state (set_rw_index 0) s
        | MATH => upd_test_state (set_math_index 0) s
        end in
      run s
  else if bool_decide (questions s = []) then
    let s := set_questions (load_questions cfg w sec false) s in
    if bool_decide (questions s = []) then to_menu s
    else run (set_remaining_seconds (default_time_limits cfg sec * 60) s)
  else run s.

Definition start_full_test (cfg : config) (w : world) (s : app) : app :=
  let s := set_test_state
    {| current_section := Some RW; current_module := Some "RW1";
       rw_index := 0; math_index := 0;
       user_answers := PerSection [] [];
       start_time := None; elapsed := 0; test_phase := Some PhaseRW |} s in
  let s := set_questions [] s in
  let s := save_progress true s in
  start_test_section cfg w RW false s.

Definition start_break (cfg : config) (s : app) : app :=
  let s := upd_test_state (set_test_phase (Some PhaseBREAK)) s in
  let s := set_remaining_seconds (default 10%Z (break_duration_minutes cfg) * 60) s in
  let s := set_timer true s in
  let s := set_stacked break_widget s in
  save_progress false s.

Definition start_next_section (cfg : config) (w : world) (s : app) : app :=
  let s := set_timer false s in
  let s := upd_test_state (set_test_phase (Some PhaseMATH)) s in
  start_test_section cfg w MATH false s.

(** ** Scoring and analytics *)

(** [(d['correct'] / d['total']) * 100 if d['total'] > 0 else 0] *)
Definition percentage (d : score_data) : pynum :=
  if (0 <? total d)%Z
  then py_mul (py_truediv (PyInt (correct d)) (PyInt (total d))) (PyInt 100)
  else PyInt 0.

(** The assignment to [average_scores], with [num_tests] already incremented. *)
Definition new_average (current_avg : pynum) (num_tests : Z) (pct : pynum) : pynum :=
  if (0 <? num_tests)%Z
  then py_truediv (py_add (py_mul current_avg (PyInt (num_tests - 1))) pct)
         (PyInt num_tests)
  else pct.

(** One pass of the inner loop of [update_analytics] over a section. *)
Definition count_incorrect (answers : pydict) (questions_list : list question)
    (weakest : gmap string Z) : gmap string Z :=
  foldl (fun weakest iq =>
           let user_answer := dict_get (KInt iq.1) answers in
           let correct_answer := q_answer iq.2 in
           let category := category_of iq.2 in
           if bool_decide (user_answer ≠ None) && bool_decide (user_answer ≠ correct_answer)
           then <[category := (default 0 (weakest !! category) + 1)%Z]> weakest
           else weakest)
        weakest (enumerate questions_list).

Definition update_analytics (cfg : config) (w : world)
    (rw_score_data math_score_data : score_data) (s : app) : app :=
  let a := analytics s in
  let num_tests := (tests_taken a + 1)%Z in
  let rw_percentage := percentage rw_score_data in
  let math_percentage := percentage math_score_data in
  let current_rw_avg := at_RW (average_scores a) in
  let current_math_avg := at_MATH (average_scores a) in
  let averages :=
    PerSection (new_average current_rw_avg num_tests rw_percentage)
               (new_average current_math_avg num_tests math_percentage) in
  let bests :=
    PerSection (py_max (at_RW (best_scores a)) rw_percentage)
               (py_max (at_MATH (best_scores a)) math_percentage) in
  let rw_all := load_questions cfg w RW true in
  let math_all := load_questions cfg w MATH true in
  let answers := user_answers (test_state s) in
  let weakest :=
    PerSection (count_incorrect (at_RW answers) rw_all (at_RW (weakest_categories a)))
               (count_incorrect (at_MATH answers) math_all (at_MATH (weakest_categories a))) in
  set_analytics
    {| tests_taken := num_tests; average_scores := averages;
       best_scores := bests; weakest_categories := weakest |} s.

(** [sum(1 for i, q in enumerate(all) if answers.get(i) == q.get('answer'))] *)
Definition count_correct (answers : pydict) (all_questions : list question) : nat :=
  length (filter (fun iq => dict_get (KInt iq.1) answers = q_answer iq.2)
                 (enumerate all_questions)).

Definition show_results (cfg : config) (w : world) (s : app) : app :=
  let s := set_timer false s in
  let rw_all_questions := load_questions cfg w RW true in
  let math_all_questions := load_questions cfg w MATH true in
  let answers := user_answers (test_state s) in
  let rw_score_data :=
    {| correct := Z.of_nat (count_correct (at_RW answers) rw_all_questions);
       total := Z.of_nat (length rw_all_questions) |} in
  let math_score_data :=
    {| correct := Z.of_nat (count_correct (at_MATH answers) math_all_questions);
       total := Z.of_nat (length math_all_questions) |} in
  let s := update_analytics cfg w rw_score_data math_score_data s in
  let s := save_progress true s in
  set_stacked review_widget s.

(** ** Submission, timer, answers, navigation *)

(** [reply] is the user's answer to "Are you sure you want to submit this
    section?" *)
Definition submit_section (cfg : config) (w : world) (reply : bool) (s : app) : app :=
  let s := set_timer false s in
  if reply then
    if decide (current_section (test_state s) = Some RW)
    then start_break cfg s
    else show_results cfg w s
  else set_timer true s.

(** The slot of the timer's [timeout] signal.  [reply] answers the
    question that [submit_section] raises when the time is up. *)
Definition update_timer (cfg : config) (w : world) (reply : bool) (s : app) : app :=
  if (remaining_seconds s <=? 0)%Z then
    let s := set_timer false s in
    submit_section cfg w reply s
  else
    let s := set_remaining_seconds (remaining_seconds s - 1) s in
    if bool_decide (test_phase (test_state s) = Some PhaseRW)
       || bool_decide (test_phase (test_state s) = Some PhaseMATH)
    then save_progress false s
    else s.

(** The radio buttons built by [test_screen]: [for i in range(4)], each
    registered in the button group under the id [i]. *)
Definition choices_buttons : list nat := seq 0 4.

(** [chr(ord('A') + id)] for a button id (under 191, so that the code point
    is one [ascii] character). *)
Definition answer_letter (id : nat) : string :=
  String (ascii_of_nat (nat_of_ascii "A"%char + id)) EmptyString.

(** [checked] is [choices_group.checkedButton()], as the id of the button.
    With no current section the subscript [user_answers[None]] raises
    [KeyError] before anything is written: the result is [None]. *)
Definition save_answer (checked : option nat) (s : app) : option app :=
  match checked with
  | Some id =>
      let idx := current_index s in
      match current_section (test_state s) with
      | Some sec =>
          let answer := answer_letter id in
          let answers := user_answers (test_state s) in
          let answers := sec_set sec (dict_set (KInt idx) answer (sec_get sec answers)) answers in
          Some (save_progress false (upd_test_state (set_user_answers answers) s))
      | None => None
      end
  | None => Some s
  end.

Definition prev_question (s : app) : app :=
  let idx := current_index s in
  if bool_decide (0 < idx) then show_question (set_current_index (idx - 1) s)
  else s.

Definition next_question (s : app) : app :=
  let idx := current_index s in
  if bool_decide (Z.of_nat idx < Z.of_nat (length (questions s)) - 1)%Z
  then show_question (set_current_index (idx + 1) s)
  else s.

(** ** Start of the process

    [__init__], given the analytics and progress files found on disk;
    [reply] answers the resume question of [load_progress]. *)
Definition startup (cfg : config) (w : world) (reply : bool)
    (a : analytics_data) (p : progress_file) : app :=
  let s :=
    {| analytics := a; test_state := initial_test_state; questions := [];
       remaining_seconds := 0; timer := false; stacked := menu_widget;
       progress := p |} in
  let s := load_progress reply s in
  if bool_decide (test_phase (test_state s) = Some PhaseBREAK) then start_break cfg s
  else
    match current_section (test_state s) with
    | Some sec => start_test_section cfg w sec true s
    | None =>
        upd_test_state (set_test_phase (Some PhaseMENU)) (set_stacked menu_widget s)
    end.

(** ** The engine as a transition system *)

Inductive event :=
  | Start_full_test
  | Update_timer (reply : bool)
  | Prev_question
  | Next_question
  | Save_answer (checked : option nat)
  | Submit_section (reply : bool)
  | Start_next_section
  | Back_to_menu
  | Relaunch (reply : bool).

(** One event of the running program.  An exception escaping a slot leaves
    the state as it was.  [Relaunch] ends the process and starts it again
    on the files it left: the progress file, and the analytics file, which
    holds the record in memory since [update_analytics] saves it at once. *)
Definition step (cfg : config) (w : world) (e : event) (s : app) : app :=
  match e with
  | Start_full_test => start_full_test cfg w s
  | Update_timer reply => update_timer cfg w reply s
  | Prev_question => prev_question s
  | Next_question => next_question s
  | Save_answer checked => default s (save_answer checked s)
  | Submit_section reply => submit_section cfg w reply s
  | Start_next_section => start_next_section cfg w s
  | Back_to_menu => back_to_menu s
  | Relaunch reply => startup cfg w reply (analytics s) (progress s)
  end.

(** The timer slot runs only while the timer is active, and the checked
    button is one of the four of the test screen. *)
Definition enabled (e : event) (s : app) : Prop :=
  match e with
  | Update_timer _ => timer s = true
  | Save_answer (Some id) => id ∈ choices_buttons
  | _ => True
  end.

Inductive reachable (cfg : config) : app -> Prop :=
  | reachable_launch w reply a :
      reachable cfg (startup cfg w reply a NoProgress)
  | reachable_step w e s :
      reachable cfg s -> enabled e s -> reachable cfg (step cfg w e s).

(** A section is running: its page is shown and its phase is set. *)
Definition running (sec : section) (s : app) : Prop :=
  test_phase (test_state s) = Some (phase_of sec)
  ∧ current_section (test_state s) = Some sec
  ∧ stacked s = test_widget.
(** A run of the engine on a list of events, in one environment. *)
Definition run_events (cfg : config) (w : world) (es : list event) (s : app) : app :=
  foldl (fun s e => step cfg w e s) s es.

#[global] Instance enabled_dec e s : Decision (enabled e s).
Proof. destruct e as [| | | |[id|]| | | |]; cbn; apply _. Defined.

(** Every event of the list is enabled in the state it is fired in. *)
Fixpoint all_enabled (cfg : config) (w : world) (es : list event) (s : app) : bool :=
  match es with
  | [] => true
  | e :: es' => bool_decide (enabled e s) && all_enabled cfg w es' (step cfg w e s)
  end.

(** ** Invariants and observations *)

(** While a section's phase is set, that section is the current one and
    its index points into the question set in play. *)
Definition index_in_bounds (s : app) : Prop :=
  ∀ sec, test_phase (test_state s) = Some (phase_of sec) ->
    current_section (test_state s) = Some sec
    ∧ current_index s < length (questions s).

Definition choice_codes : list string := ["A"; "B"; "C"; "D"].

Definition values_in {K} (codes : list string) (d : list (K * string)) : Prop :=
  Forall (fun kv => kv.2 ∈ codes) d.

(** Every answer held in memory or in the progress file is a choice code. *)
Definition answers_ok (s : app) : Prop :=
  (∀ sec, values_in choice_codes (sec_get sec (user_answers (test_state s))))
  ∧ ∀ data j o, progress s = Progress data -> jp_test_state data = Some j ->
      js_user_answers j = Some o ->
      ∀ sec, values_in choice_codes (sec_get sec o).

(** [weakest_categories[sec].get(category, 0)] *)
Definition weak_count (a : analytics_data) (sec : section) (category : string) : Z :=
  default 0%Z (sec_get sec (weakest_categories a) !! category).

(** The answered questions of a bank whose answer is not the correct one,
    for one category. *)
Definition answered_wrong (answers : pydict) (bank_questions : list question)
    (category : string) : list (nat * question) :=
  filter (fun iq => category_of iq.2 = category
                    ∧ is_Some (dict_get (KInt iq.1) answers)
                    ∧ dict_get (KInt iq.1) answers ≠ q_answer iq.2)
         (enumerate bank_questions).

(** ** Example data

    The five Reading/Writing questions and the five Math questions that
    the program itself writes when it finds no bank. *)

Definition dummy_rw_questions : list question :=
  [ Question (Some "RW1") (Some "What is the main idea of a text?")
      (Some ["A. The topic"; "B. The author's purpose"; "C. The central point";
             "D. The concluding sentence"])
      (Some "C") (Some "Main Idea");
    Question (Some "RW2") (Some "Which word means 'generous'?")
      (Some ["A. Stingy"; "B. Altruistic"; "C. Selfish"; "D. Greedy"])
      (Some "B") (Some "Vocabulary");
    Question (Some "RW3")
      (Some "Identify the independent clause: 'After the rain stopped, the sun came out.'")
      (Some ["A. After the rain stopped"; "B. the rain stopped"; "C. the sun came out";
             "D. After the rain stopped, the sun came out"])
      (Some "C") (Some "Sentence Structure");
    Question (Some "RW4") (Some "Which of the following is an example of a simile?")
      (Some ["A. The moon smiled."; "B. She was as brave as a lion.";
             "C. The car was a beast."; "D. The wind whispered secrets."])
      (Some "B") (Some "Literary Devices");
    Question (Some "RW5") (Some "What is the purpose of a thesis statement?")
      (Some ["A. To summarize the conclusion"; "B. To introduce the topic";
             "C. To state the main argument of an essay";
             "D. To provide supporting evidence"])
      (Some "C") (Some "Essay Structure") ].

Definition dummy_math_questions : list question :=
  [ Question (Some "M1") (Some "If 2x + 5 = 11, what is x?")
      (Some ["A. 2"; "B. 3"; "C. 4"; "D. 5"]) (Some "B") (Some "Algebra");
    Question (Some "M2")
      (Some "What is the area of a rectangle with length 8 and width 4?")
      (Some ["A. 12"; "B. 16"; "C. 24"; "D. 32"]) (Some "D") (Some "Geometry");
    Question (Some "M3") (Some "Solve for y: 3(y - 2) = 9")
      (Some ["A. 3"; "B. 4"; "C. 5"; "D. 6"]) (Some "C") (Some "Equations");
    Question (Some "M4")
      (Some "If a car travels at 60 miles per hour, how far does it travel in 2.5 hours?")
      (Some ["A. 120 miles"; "B. 150 miles"; "C. 180 miles"; "D. 200 miles"])
      (Some "B") (Some "Word Problems");
    Question (Some "M5") (Some "What is 15% of 200?")
      (Some ["A. 20"; "B. 30"; "C. 40"; "D. 50"]) (Some "B") (Some "Percentages") ].

(** Entries that lack the answer, the options, or the id. *)
Definition malformed_questions : list question :=
  [ Question (Some "RW6") (Some "Which sentence is punctuated correctly?")
      (Some ["A. one"; "B. two"]) None (Some "Punctuation");
    Question (Some "RW7") (Some "Choose the best transition.") None (Some "A") None;
    Question None (Some "Which choice completes the text?")
      (Some ["A. one"; "B. two"; "C. three"]) (Some "B") (Some "Vocabulary") ].

(** A Reading/Writing bank of 5 valid and 3 malformed entries, interleaved. *)
Definition mixed_rw_pool : list question :=
  match dummy_rw_questions, malformed_questions with
  | [q1; q2; q3; q4; q5], [m1; m2; m3] => [q1; m1; q2; q3; m2; q4; m3; q5]
  | _, _ => []
  end.

(** A Math bank of eight questions. *)
Definition eight_math_questions : list question :=
  dummy_math_questions ++
  [ Question (Some "M6") (Some "What is 7 * 8?")
      (Some ["A. 54"; "B. 56"; "C. 58"; "D. 64"]) (Some "B") (Some "Arithmetic");
    Question (Some "M7") (Some "What is the slope of y = 3x + 1?")
      (Some ["A. 1"; "B. 2"; "C. 3"; "D. 4"]) (Some "C") (Some "Algebra");
    Question (Some "M8") (Some "How many sides has a hexagon?")
      (Some ["A. 5"; "B. 6"; "C. 7"; "D. 8"]) (Some "B") (Some "Geometry") ].

Definition example_world : world :=
  {| bank := fun sec =>
       match sec with
       | RW => BankJSON (Some mixed_rw_pool)
       | MATH => BankJSON (Some eight_math_questions)
       end;
     draws := [3; 1; 4; 1; 5; 9; 2; 6];
     clock := 1762128000%float |}.

(** A first launch with no files on disk. *)
Definition first_launch : app :=
  startup default_config_data example_world false default_analytics NoProgress.

(** The Reading/Writing section, 32 minutes after its start: the countdown
    has reached zero and the timer is about to fire again. *)
Definition rw_time_up : app :=
  run_events default_config_data example_world
    (Start_full_test :: replicate 1920 (Update_timer true)) first_launch.

(** The break, 10 minutes after its start. *)
Definition break_time_up : app :=
  run_events default_config_data example_world
    ([Start_full_test; Submit_section true] ++ replicate 600 (Update_timer true))
    first_launch.

(** In the Math section at its sixth question, with one answer recorded in
    each section. *)
Definition math_sixth_question : app :=
  run_events default_config_data example_world
    ([Start_full_test; Save_answer (Some 1); Submit_section true; Start_next_section]
     ++ replicate 5 Next_question ++ [Save_answer (Some 2)])
    first_launch.

(** The Math section of a test in which no question was answered. *)
Definition unanswered_math : app :=
  run_events default_config_data example_world
    [Start_full_test; Submit_section true; Start_next_section] first_launch.

(** A progress file written in the Math section, sixth question, from
    which the question set is absent. *)
Definition progress_without_questions : json_progress :=
  {| jp_test_state :=
       Some {| js_current_section := Some MATH;
               js_current_module := Some "RW1";
               js_rw_index := Some 0;
               js_math_index := Some 5;
               js_user_answers := Some (PerSection [("0", "B")] [("5", "C")]);
               js_start_time := Some 1762128000%float;
               js_elapsed := 0;
               js_test_phase := Some PhaseMATH |};
     jp_questions := None;
     jp_remaining_seconds := Some 17%Z |}.

(** ** The rest of the engine: display, export, pages

    What [save_progress] writes when it does not delete. *)
Definition snapshot_of (s : app) : json_progress :=
  {| jp_test_state := Some (json_dump_test_state (test_state s));
     jp_questions := Some (questions s);
     jp_remaining_seconds := Some (remaining_seconds s) |}.

(** The radio button that [show_question] checks for a saved answer:
    [ord(ans) - ord('A')] when it is a position among the four buttons.
    [ord] raises [TypeError] on a string that is not one character, and
    the handler clears the selection, as the out-of-range branch does. *)
Definition selected_idx (ans : option string) : option nat :=
  match ans with
  | Some (String c EmptyString) =>
      let idx := (Z.of_nat (nat_of_ascii c) - Z.of_nat (nat_of_ascii "A"%char))%Z in
      if bool_decide (0 ≤ idx)%Z && bool_decide (idx < Z.of_nat (length choices_buttons))%Z
      then Some (Z.to_nat idx)
      else None
  | _ => None
  end.

(** The button checked on the test page once [show_question] has run, for
    a state with a current section. *)
Definition checked_button (s : app) : option nat :=
  match current_section (test_state s) with
  | Some sec =>
      selected_idx
        (dict_get (KInt (current_index s)) (sec_get sec (user_answers (test_state s))))
  | None => None
  end.

(** The file written by [save_results]. *)
Module ResultsFile.
Record detailed_answer := DetailedAnswer {
  question_id : string;
  question_text : string;
  options : list string;
  user_answer : string;
  correct_answer : string;
  is_correct : bool;
  category : string }.

Record section_results := SectionResults {
  score : nat;
  total_questions : nat;
  detailed_answers : list detailed_answer }.

Record t := Make {
  timestamp : string;
  reading_writing_section : section_results;
  math_section : section_results }.
End ResultsFile.

(** One pass of a loop of [save_results] over the complete bank. *)
Definition detailed_answers_of (answers : pydict) (all_questions : list question)
    : list ResultsFile.detailed_answer :=
  map (fun iq =>
         let user_ans := default "N/A" (dict_get (KInt iq.1) answers) in
         let correct_ans := default "N/A" (q_answer iq.2) in
         {| ResultsFile.question_id := default "N/A" (q_id iq.2);
            ResultsFile.question_text := default "N/A" (q_question iq.2);
            ResultsFile.options := default [] (q_options iq.2);
            ResultsFile.user_answer := user_ans;
            ResultsFile.correct_answer := correct_ans;
            ResultsFile.is_correct := bool_decide (user_ans = correct_ans);
            ResultsFile.category := category_of iq.2 |})
      (enumerate all_questions).

Definition section_results_of (detailed : list ResultsFile.detailed_answer)
    : ResultsFile.section_results :=
  {| ResultsFile.score :=
       length (filter (fun a => ResultsFile.is_correct a = true) detailed);
     ResultsFile.total_questions := length detailed;
     ResultsFile.detailed_answers := detailed |}.

(** [filename] is what the file dialog returns (empty when cancelled),
    [now] is [datetime.now().isoformat()].  The result is the JSON handed
    to [json.dump], or [None] when nothing is written. *)
Definition save_results (cfg : config) (w : world) (filename now : string) (s : app)
    : option ResultsFile.t :=
  if bool_decide (filename = "") then None
  else
    let rw_all_questions := load_questions cfg w RW true in
    let math_all_questions := load_questions cfg w MATH true in
    let answers := user_answers (test_state s) in
    let detailed_rw_answers := detailed_answers_of (at_RW answers) rw_all_questions in
    let detailed_math_answers := detailed_answers_of (at_MATH answers) math_all_questions in
    Some {| ResultsFile.timestamp := now;
            ResultsFile.reading_writing_section := section_results_of detailed_rw_answers;
            ResultsFile.math_section := section_results_of detailed_math_answers |}.

(** The sum of the counts of a section's weakest categories. *)
Definition total_incorrect (weakest : gmap string Z) : Z :=
  map_fold (fun _ count acc => (count + acc)%Z) 0%Z weakest.

(** A configuration whose durations are not negative. *)
Definition durations_ok (cfg : config) : Prop :=
  (∀ sec, 0 ≤ default_time_limits cfg sec)%Z
  ∧ (0 ≤ default 10 (break_duration_minutes cfg))%Z.

(** The remaining seconds in memory and in the progress file. *)
Definition time_not_negative (s : app) : Prop :=
  (0 ≤ remaining_seconds s)%Z
  ∧ ∀ data r, progress s = Progress data -> jp_remaining_seconds data = Some r ->
      (0 ≤ r)%Z.

(** *** Pages

    What the user can do depends on the page shown: each button lives on
    one page of the stacked widget.  The two buttons that only change the
    page, "View Analytics" on the menu and "Back to Menu" on the analytics
    page, are actions of their own. *)
Inductive action :=
  | Engine (e : event)
  | View_analytics
  | Leave_analytics.

Definition act (cfg : config) (w : world) (a : action) (s : app) : app :=
  match a with
  | Engine e => step cfg w e s
  | View_analytics => set_stacked analytics_widget s
  | Leave_analytics => set_stacked menu_widget s
  end.

Definition available (a : action) (s : app) : Prop :=
  match a with
  | Engine Start_full_test => stacked s = menu_widget
  | Engine (Update_timer _) => timer s = true
  | Engine Prev_question => stacked s = test_widget
  | Engine Next_question => stacked s = test_widget
  | Engine (Save_answer checked) =>
      stacked s = test_widget ∧ enabled (Save_answer checked) s
  | Engine (Submit_section _) => stacked s = test_widget
  | Engine Start_next_section => stacked s = break_widget
  | Engine Back_to_menu => stacked s = review_widget
  | Engine (Relaunch _) => True
  | View_analytics => stacked s = menu_widget
  | Leave_analytics => stacked s = analytics_widget
  end.

Inductive on_screen (cfg : config) : app -> Prop :=
  | on_screen_launch w reply a :
      on_screen cfg (startup cfg w reply a NoProgress)
  | on_screen_act w a s :
      on_screen cfg s -> available a s -> on_screen cfg (act cfg w a s).

(** While a section runs, the progress file is the snapshot of the state. *)
Definition progress_saved (s : app) : Prop :=
  ∀ sec, running sec s -> progress s = Progress (snapshot_of s).

(** An answers dictionary as one session builds it: every key an index,
    no key twice. *)
Definition int_keyed (d : pydict) : Prop :=
  NoDup d.*1 ∧ Forall (fun kv => ∃ i, kv.1 = KInt i) d.

(** What each page guarantees: the timer is stopped on the menu, the
    results and the analytics pages; the break page is shown in the break
    phase; the results page is shown with no progress file left. *)
Definition pages_ok (s : app) : Prop :=
  (stacked s = menu_widget ∨ stacked s = review_widget ∨ stacked s = analytics_widget ->
   timer s = false)
  ∧ (stacked s = break_widget -> test_phase (test_state s) = Some PhaseBREAK)
  ∧ (stacked s = review_widget -> progress s = NoProgress).

(** Two more environments: a Math bank of the five questions only, and
    no bank file at all. *)
Definition five_math_world : world :=
  {| bank := fun sec =>
       match sec with
       | RW => BankJSON (Some mixed_rw_pool)
       | MATH => BankJSON (Some dummy_math_questions)
       end;
     draws := [3; 1; 4; 1; 5; 9; 2; 6];
     clock := 1762128000%float |}.

Definition no_bank_world : world :=
  {| bank := fun _ => FileNotFound;
     draws := [3; 1; 4; 1; 5; 9; 2; 6];
     clock := 1762128000%float |}.

(** * Properties *)

(** ** Properties of the loader *)

Section Sampling.
Context {A : Type}.
Implicit Types (population : list A) (rnd : list nat).

Lemma random_sample_length rnd population k :
  length (random_sample rnd population k) = k `min` length population.
Proof.
  revert rnd population.
  induction k as [|k IH]; intros rnd population; cbn [random_sample].
  - reflexivity.
  - destruct (population !! _) as [x|] eqn:Hx; cbn [length].
    + rewrite IH, length_delete by eauto.
      apply lookup_lt_Some in Hx. lia.
    + apply lookup_ge_None in Hx.
      destruct population as [|a population']; cbn [length] in *; [lia|].
      pose proof (Nat.mod_upper_bound (hd 0 rnd) (S (length population'))).
      lia.
Qed.

Lemma random_sample_submseteq rnd population k :
  random_sample rnd population k ⊆+ population.
Proof.
  revert rnd population. induction k as [|k IH]; intros rnd population; simpl.
  - apply submseteq_nil_l.
  - destruct (population !! _) as [x|] eqn:Hx.
    + transitivity (x :: delete (hd 0 rnd `mod` length population) population).
      * apply submseteq_skip, IH.
      * apply Permutation_submseteq. symmetry. by apply delete_Permutation.
    + apply submseteq_nil_l.
Qed.

Lemma random_sample_all rnd population k :
  length population ≤ k -> random_sample rnd population k ≡ₚ population.
Proof.
  intros Hk. apply submseteq_length_Permutation.
  - apply random_sample_submseteq.
  - rewrite random_sample_length. lia.
Qed.
End Sampling.

Lemma is_valid_spec q :
  is_valid q = true <->
  is_Some (q_id q) ∧ is_Some (q_question q) ∧ is_Some (q_options q)
  ∧ is_Some (q_answer q).
Proof.
  unfold is_valid, has_key. cbn.
  rewrite !andb_true_iff, !bool_decide_eq_true. tauto.
Qed.

Lemma load_questions_valid cfg w sec for_analytics q :
  q ∈ load_questions cfg w sec for_analytics ->
  is_valid q = true ∧ ∃ pool, bank w sec = BankJSON (Some pool) ∧ q ∈ pool.
Proof.
  unfold load_questions.
  destruct (bank w sec) as [| |[pool|]]; try (by intros ?%elem_of_nil).
  change (default [] (Some pool)) with pool. intros Hq.
  assert (Hin : q ∈ filter (fun q => is_valid q) pool).
  { case_bool_decide; [by apply elem_of_nil in Hq|].
    destruct for_analytics; [done|].
    destruct (_ <? 0)%Z; [by apply elem_of_nil in Hq|].
    eapply elem_of_submseteq; [exact Hq | apply random_sample_submseteq]. }
  apply list_elem_of_filter in Hin as [Hv Hin].
  split; [by apply Is_true_eq_true | eauto].
Qed.

(** ** The sampled bank (C7) *)

(** C7.  When the bank file of a section holds the pool [pool] and the
    configured number of questions is not negative, the sampled load
    returns exactly [min (number of valid entries) n] questions, as a
    sub-multiset of the valid entries: every returned question is an entry
    of the pool that has its id, text, options and answer, so no malformed
    entry is ever returned; and when [n] is at least the number of valid
    entries (5 valid, 3 malformed, [n = 27]) the result is the valid
    entries, all of them, in some order. *)
Theorem load_questions_sampled cfg w sec pool :
  bank w sec = BankJSON (Some pool) ->
  (0 ≤ total_questions cfg sec)%Z ->
  let valid := filter (fun q => is_valid q) pool in
  let loaded := load_questions cfg w sec false in
  Z.of_nat (length loaded)
    = Z.min (Z.of_nat (length valid)) (total_questions cfg sec)
  ∧ loaded ⊆+ valid
  ∧ (∀ q, q ∈ loaded ->
       q ∈ pool ∧ is_Some (q_id q) ∧ is_Some (q_question q)
       ∧ is_Some (q_options q) ∧ is_Some (q_answer q))
  ∧ ((Z.of_nat (length valid) ≤ total_questions cfg sec)%Z -> loaded ≡ₚ valid).
Proof.
  intros Hbank Hn valid loaded.
  assert (Hloaded : loaded =
    random_sample (draws w) valid
      (Z.to_nat (Z.min (Z.of_nat (length valid)) (total_questions cfg sec)))).
  { subst loaded. unfold load_questions. rewrite Hbank.
    change (default [] (Some pool)) with pool.
    fold valid. case_bool_decide as Hnil.
    - rewrite Hnil. by destruct (Z.to_nat _).
    - destruct (_ <? 0)%Z eqn:Hneg; [apply Z.ltb_lt in Hneg; lia | done]. }
  split_and!.
  - rewrite Hloaded, random_sample_length. lia.
  - rewrite Hloaded. apply random_sample_submseteq.
  - intros q Hq.
    assert (Hin : q ∈ valid).
    { eapply elem_of_submseteq; [exact Hq|].
      rewrite Hloaded. apply random_sample_submseteq. }
    apply list_elem_of_filter in Hin as [Hv Hin].
    apply Is_true_eq_true, is_valid_spec in Hv. tauto.
  - intros Hall. rewrite Hloaded. apply random_sample_all. lia.
Qed.

(** ** Dictionaries and their JSON image *)

Section DictFacts.
Context {K V : Type} `{EqDecision K}.
Implicit Types (d : list (K * V)) (k : K) (v : V).

Lemma dict_get_set_eq k v d : dict_get k (dict_set k v d) = Some v.
Proof.
  induction d as [|[k' v'] d IH]; simpl.
  - by rewrite decide_True.
  - destruct (decide (k = k')) as [->|Hne]; simpl.
    + by rewrite decide_True.
    + by rewrite decide_False.
Qed.

Lemma dict_get_set_ne k k' v d :
  k ≠ k' -> dict_get k' (dict_set k v d) = dict_get k' d.
Proof.
  intros Hne. induction d as [|[k0 v0] d IH]; simpl.
  - by rewrite decide_False.
  - destruct (decide (k = k0)) as [->|Hne0]; simpl.
    + by rewrite !decide_False.
    + destruct (decide (k' = k0)); [done | exact IH].
Qed.
End DictFacts.

Lemma values_in_dict_set {K} `{EqDecision K} codes (k : K) v (d : list (K * string)) :
  v ∈ codes -> values_in codes d -> values_in codes (dict_set k v d).
Proof.
  intros Hv. unfold values_in. induction 1 as [|[k' v'] d Hk' Hd IH]; simpl.
  - by repeat constructor.
  - destruct (decide (k = k')); constructor; auto.
Qed.

Lemma values_in_dump codes (d : pydict) :
  values_in codes d -> values_in codes (json_dump_dict d).
Proof. unfold values_in, json_dump_dict. intros Hd. by apply Forall_map. Qed.

Lemma values_in_load_from codes (o : json_object) (acc : pydict) :
  values_in codes acc -> values_in codes o ->
  values_in codes (foldl (fun d kv => dict_set (KStr kv.1) kv.2 d) acc o).
Proof.
  intros Hacc Ho. revert acc Hacc.
  induction Ho as [|[k v] o Hv Ho IH]; intros acc Hacc; simpl.
  - exact Hacc.
  - apply IH. by apply values_in_dict_set.
Qed.

Lemma values_in_load codes (o : json_object) :
  values_in codes o -> values_in codes (json_load_dict o).
Proof. intros Ho. apply values_in_load_from; [constructor | exact Ho]. Qed.

(** Whatever was written, a loaded dictionary has no [int] key. *)
Lemma json_load_from_no_int_key i (o : json_object) (acc : pydict) :
  dict_get (KInt i) (foldl (fun d kv => dict_set (KStr kv.1) kv.2 d) acc o)
  = dict_get (KInt i) acc.
Proof.
  revert acc. induction o as [|[k v] o IH]; intros acc; simpl; [done|].
  rewrite IH. by apply dict_get_set_ne.
Qed.

Lemma json_load_no_int_key i (o : json_object) :
  dict_get (KInt i) (json_load_dict o) = None.
Proof. unfold json_load_dict. by rewrite json_load_from_no_int_key. Qed.

Lemma answer_letter_choice id :
  id ∈ choices_buttons -> answer_letter id ∈ choice_codes.
Proof.
  unfold choices_buttons. intros Hid. apply elem_of_seq in Hid.
  destruct id as [|[|[|[|id]]]]; [| | | |lia];
    vm_compute; repeat (first [apply list_elem_of_here | apply list_elem_of_further]).
Qed.

Lemma sec_get_set_eq {A} sec (v : A) p : sec_get sec (sec_set sec v p) = v.
Proof. by destruct sec. Qed.

Lemma sec_get_set_ne {A} sec sec' (v : A) p :
  sec ≠ sec' -> sec_get sec' (sec_set sec v p) = sec_get sec' p.
Proof. by destruct sec, sec'. Qed.

(** ** The index invariant *)

Lemma index_in_bounds_frame s s' :
  test_phase (test_state s') = test_phase (test_state s) ->
  current_section (test_state s') = current_section (test_state s) ->
  rw_index (test_state s') = rw_index (test_state s) ->
  math_index (test_state s') = math_index (test_state s) ->
  questions s' = questions s ->
  index_in_bounds s -> index_in_bounds s'.
Proof.
  unfold index_in_bounds, current_index.
  intros -> -> -> -> ->. done.
Qed.

Lemma not_running_in_bounds s :
  (∀ sec, test_phase (test_state s) ≠ Some (phase_of sec)) -> index_in_bounds s.
Proof. intros Hph sec Hsec. by destruct (Hph sec). Qed.

Lemma back_to_menu_in_bounds s : index_in_bounds (back_to_menu s).
Proof. apply not_running_in_bounds. by intros []. Qed.

Lemma show_question_in_bounds s :
  (∀ sec, test_phase (test_state s) = Some (phase_of sec) ->
          current_section (test_state s) = Some sec) ->
  index_in_bounds (show_question s).
Proof.
  intros Hsec. unfold show_question.
  destruct (bool_decide (questions s = []) || _) eqn:Hguard.
  - apply back_to_menu_in_bounds.
  - apply orb_false_iff in Hguard as [_ Hlen].
    apply bool_decide_eq_false in Hlen.
    intros sec Hph. split; [by apply Hsec | lia].
Qed.

Lemma start_break_in_bounds cfg s : index_in_bounds (start_break cfg s).
Proof. apply not_running_in_bounds. by intros []. Qed.

Lemma start_test_section_in_bounds cfg w sec resume s :
  index_in_bounds (start_test_section cfg w sec resume s).
Proof.
  assert (Hrun : ∀ s0,
    test_phase (test_state s0) = Some (phase_of sec) ->
    current_section (test_state s0) = Some sec ->
    index_in_bounds
      (save_progress false (set_stacked test_widget (show_question (set_timer true s0))))).
  { intros s0 Hph Hcur.
    apply (index_in_bounds_frame (show_question (set_timer true s0))); try done.
    apply show_question_in_bounds. cbn. intros sec'. rewrite Hph, Hcur.
    by destruct sec, sec'. }
  unfold start_test_section. cbv zeta.
  destruct resume; cbn [negb]; repeat case_bool_decide;
    try (apply not_running_in_bounds; by intros []);
    try (apply Hrun; by destruct sec).
Qed.

Lemma show_results_in_bounds cfg w s :
  index_in_bounds s -> index_in_bounds (show_results cfg w s).
Proof. by apply index_in_bounds_frame. Qed.

Lemma submit_section_in_bounds cfg w reply s :
  index_in_bounds s -> index_in_bounds (submit_section cfg w reply s).
Proof.
  intros Hs. unfold submit_section. destruct reply.
  - case_decide.
    + apply start_break_in_bounds.
    + apply show_results_in_bounds. revert Hs. by apply index_in_bounds_frame.
  - revert Hs. by apply index_in_bounds_frame.
Qed.

Lemma update_timer_in_bounds cfg w reply s :
  index_in_bounds s -> index_in_bounds (update_timer cfg w reply s).
Proof.
  intros Hs. unfold update_timer. destruct (_ <=? _)%Z.
  - apply submit_section_in_bounds. revert Hs. by apply index_in_bounds_frame.
  - destruct (_ || _); revert Hs; by apply index_in_bounds_frame.
Qed.

Lemma set_current_index_sections val s :
  test_phase (test_state (set_current_index val s)) = test_phase (test_state s)
  ∧ current_section (test_state (set_current_index val s))
    = current_section (test_state s)
  ∧ questions (set_current_index val s) = questions s
  ∧ current_index (set_current_index val s) = val.
Proof.
  unfold set_current_index, current_index.
  destruct (decide (current_section (test_state s) = Some RW)) as [Hrw|Hrw]; cbn.
  - by rewrite decide_True.
  - by rewrite decide_False.
Qed.

Lemma navigate_in_bounds val s :
  index_in_bounds s -> index_in_bounds (show_question (set_current_index val s)).
Proof.
  intros Hs. apply show_question_in_bounds. intros sec.
  destruct (set_current_index_sections val s) as (-> & -> & _).
  intros Hph. by apply Hs.
Qed.

Lemma prev_question_in_bounds s :
  index_in_bounds s -> index_in_bounds (prev_question s).
Proof.
  intros Hs. unfold prev_question. case_bool_decide; [|done].
  by apply navigate_in_bounds.
Qed.

Lemma next_question_in_bounds s :
  index_in_bounds s -> index_in_bounds (next_question s).
Proof.
  intros Hs. unfold next_question. case_bool_decide; [|done].
  by apply navigate_in_bounds.
Qed.

Lemma save_answer_in_bounds checked s s' :
  save_answer checked s = Some s' -> index_in_bounds s -> index_in_bounds s'.
Proof.
  unfold save_answer. destruct checked as [id|]; [|by intros [= <-]].
  destruct (current_section (test_state s)) as [sec|] eqn:Hsec; [|done].
  intros [= <-]. by apply index_in_bounds_frame.
Qed.

Lemma startup_in_bounds cfg w reply a p : index_in_bounds (startup cfg w reply a p).
Proof.
  unfold startup. cbv zeta. case_bool_decide.
  - apply start_break_in_bounds.
  - destruct (current_section _).
    + apply start_test_section_in_bounds.
    + apply not_running_in_bounds. by intros [].
Qed.

Lemma step_in_bounds cfg w e s :
  index_in_bounds s -> index_in_bounds (step cfg w e s).
Proof.
  intros Hs. destruct e as [|reply| | |checked|reply| | |reply]; cbn [step].
  - apply start_test_section_in_bounds.
  - by apply update_timer_in_bounds.
  - by apply prev_question_in_bounds.
  - by apply next_question_in_bounds.
  - destruct (save_answer checked s) as [s'|] eqn:Hsave; [|done].
    by apply (save_answer_in_bounds checked s).
  - by apply submit_section_in_bounds.
  - apply start_test_section_in_bounds.
  - apply back_to_menu_in_bounds.
  - apply startup_in_bounds.
Qed.

Lemma reachable_in_bounds cfg s : reachable cfg s -> index_in_bounds s.
Proof.
  induction 1 as [w reply a|w e s _ IH _].
  - apply startup_in_bounds.
  - by apply step_in_bounds.
Qed.

(** ** Navigation (C5) *)

Lemma show_question_shown s :
  current_index s < length (questions s) -> show_question s = s.
Proof.
  intros Hlt. unfold show_question.
  rewrite (bool_decide_eq_false_2 (questions s = [])).
  - rewrite bool_decide_eq_false_2; [done | lia].
  - intros Hnil. rewrite Hnil in Hlt. simpl in Hlt. lia.
Qed.

Lemma navigate_moves val s sec :
  running sec s -> val < length (questions s) ->
  let s' := show_question (set_current_index val s) in
  running sec s' ∧ current_index s' = val ∧ questions s' = questions s
  ∧ user_answers (test_state s') = user_answers (test_state s)
  ∧ remaining_seconds s' = remaining_seconds s.
Proof.
  intros (Hph & Hcur & Hpage) Hval s'.
  destruct (set_current_index_sections val s) as (Hph' & Hcur' & Hqs' & Hidx').
  assert (Hs' : s' = set_current_index val s).
  { apply show_question_shown. by rewrite Hqs', Hidx'. }
  rewrite Hs'. unfold running. rewrite Hph', Hcur', Hqs', Hidx'.
  split_and!; try done; unfold set_current_index; by case_decide.
Qed.

(** C5.  In every reachable state in which a section is running, the
    current index lies in [0, len(questions) - 1]; [prev_question] at index
    0 and [next_question] at the last index return the state as it is;
    anywhere else they move the index by exactly one, keep the section
    running on the same question set, and so stay in bounds. *)
Theorem navigation_stays_in_bounds cfg s sec :
  reachable cfg s -> running sec s ->
  let n := length (questions s) in
  let i := current_index s in
  i < n
  ∧ (i = 0 -> prev_question s = s)
  ∧ (0 < i ->
       running sec (prev_question s)
       ∧ current_index (prev_question s) = i - 1
       ∧ questions (prev_question s) = questions s)
  ∧ (i = n - 1 -> next_question s = s)
  ∧ (i < n - 1 ->
       running sec (next_question s)
       ∧ current_index (next_question s) = i + 1
       ∧ questions (next_question s) = questions s)
  ∧ current_index (prev_question s) < length (questions (prev_question s))
  ∧ current_index (next_question s) < length (questions (next_question s)).
Proof.
  intros Hreach Hrun n i.
  assert (Hi : i < n).
  { apply reachable_in_bounds in Hreach. destruct Hrun as (Hph & _ & _).
    by destruct (Hreach sec Hph). }
  assert (Hprev : 0 < i ->
    running sec (prev_question s) ∧ current_index (prev_question s) = i - 1
    ∧ questions (prev_question s) = questions s).
  { intros Hpos. unfold prev_question. fold i. rewrite bool_decide_eq_true_2 by done.
    destruct (navigate_moves (i - 1) s sec) as (? & ? & ? & _); [done | lia | done]. }
  assert (Hnext : i < n - 1 ->
    running sec (next_question s) ∧ current_index (next_question s) = i + 1
    ∧ questions (next_question s) = questions s).
  { intros Hlast. unfold next_question. fold i n. rewrite bool_decide_eq_true_2 by lia.
    destruct (navigate_moves (i + 1) s sec) as (? & ? & ? & _); [done | lia | done]. }
  assert (Hfirst : i = 0 -> prev_question s = s).
  { intros Hz. unfold prev_question. fold i. rewrite bool_decide_eq_false_2; [done | lia]. }
  assert (Hend : i = n - 1 -> next_question s = s).
  { intros Hz. unfold next_question. fold i n. rewrite bool_decide_eq_false_2; [done | lia]. }
  split_and!; try done.
  - destruct (decide (i = 0)) as [Hz|Hz].
    + by rewrite Hfirst.
    + destruct Hprev as (_ & -> & ->); lia.
  - destruct (decide (i = n - 1)) as [Hz|Hz].
    + by rewrite Hend.
    + destruct Hnext as (_ & -> & ->); lia.
Qed.

Lemma first_section_reachable :
  reachable default_config_data
    (step default_config_data example_world Start_full_test first_launch).
Proof. apply reachable_step; [apply reachable_launch | exact I]. Defined.

Lemma first_section_running :
  running RW (step default_config_data example_world Start_full_test first_launch).
Proof. by vm_compute. Defined.

Lemma navigation_stays_in_bounds_witness :
  let s := step default_config_data example_world Start_full_test first_launch in
  current_index s < length (questions s)
  ∧ prev_question s = s
  ∧ current_index (next_question s) = 1.
Proof.
  intros s.
  destruct (navigation_stays_in_bounds default_config_data s RW
              first_section_reachable first_section_running)
    as (Hlt & Hfirst & _ & _ & Hnext & _).
  split_and!.
  - exact Hlt.
  - apply Hfirst. reflexivity.
  - destruct Hnext as (_ & Hidx & _); [vm_compute; lia | exact Hidx].
Defined.

(** ** The answers invariant *)

Create HintDb session discriminated.

Lemma answers_ok_frame s s' :
  user_answers (test_state s') = user_answers (test_state s) ->
  progress s' = progress s ->
  answers_ok s -> answers_ok s'.
Proof. unfold answers_ok. intros -> ->. done. Qed.

Lemma answers_ok_fresh t s :
  user_answers t = PerSection [] [] ->
  answers_ok s -> answers_ok (set_test_state t s).
Proof.
  intros Ht [_ Hfile]. split; [|exact Hfile].
  intros sec. cbn. rewrite Ht. destruct sec; constructor.
Qed.

Lemma answers_ok_save_progress delete s :
  answers_ok s -> answers_ok (save_progress delete s).
Proof.
  intros [Hmem _]. split; [by destruct delete|].
  destruct delete; cbn; [done|].
  intros data j o [= <-] [= <-] [= <-] sec.
  specialize (Hmem sec). destruct sec; by apply values_in_dump.
Qed.

#[local] Hint Resolve answers_ok_save_progress : session.
#[local] Hint Extern 2 (answers_ok (set_test_state _ _)) =>
  apply answers_ok_fresh; [reflexivity|] : session.
#[local] Hint Extern 1 (answers_ok (_ _ ?s)) =>
  apply (answers_ok_frame s); [reflexivity | reflexivity |] : session.

Lemma back_to_menu_answers_ok s : answers_ok s -> answers_ok (back_to_menu s).
Proof. unfold back_to_menu. cbv zeta. auto 10 with session. Qed.
#[local] Hint Resolve back_to_menu_answers_ok : session.

Lemma show_question_answers_ok s : answers_ok s -> answers_ok (show_question s).
Proof. unfold show_question. destruct (_ || _); auto with session. Qed.
#[local] Hint Resolve show_question_answers_ok : session.

Lemma set_current_index_answers_ok val s :
  answers_ok s -> answers_ok (set_current_index val s).
Proof. unfold set_current_index. case_decide; auto 10 with session. Qed.
#[local] Hint Resolve set_current_index_answers_ok : session.

Lemma start_test_section_answers_ok cfg w sec resume s :
  answers_ok s -> answers_ok (start_test_section cfg w sec resume s).
Proof.
  intros Hs. unfold start_test_section. cbv zeta.
  destruct resume, sec; cbn [negb]; repeat case_bool_decide; auto 20 with session.
Qed.
#[local] Hint Resolve start_test_section_answers_ok : session.

Lemma start_break_answers_ok cfg s : answers_ok s -> answers_ok (start_break cfg s).
Proof. unfold start_break. cbv zeta. auto 10 with session. Qed.
#[local] Hint Resolve start_break_answers_ok : session.

Lemma show_results_answers_ok cfg w s :
  answers_ok s -> answers_ok (show_results cfg w s).
Proof.
  intros Hs. unfold show_results. cbv zeta.
  apply (answers_ok_frame (save_progress true s)); [done | done |].
  auto with session.
Qed.
#[local] Hint Resolve show_results_answers_ok : session.

Lemma submit_section_answers_ok cfg w reply s :
  answers_ok s -> answers_ok (submit_section cfg w reply s).
Proof.
  intros Hs. unfold submit_section. cbv zeta.
  destruct reply; [case_decide|]; auto 10 with session.
Qed.
#[local] Hint Resolve submit_section_answers_ok : session.

Lemma update_timer_answers_ok cfg w reply s :
  answers_ok s -> answers_ok (update_timer cfg w reply s).
Proof.
  intros Hs. unfold update_timer. cbv zeta.
  destruct (_ <=? _)%Z; [|destruct (_ || _)]; auto 10 with session.
Qed.

Lemma prev_question_answers_ok s : answers_ok s -> answers_ok (prev_question s).
Proof. unfold prev_question. case_bool_decide; auto with session. Qed.

Lemma next_question_answers_ok s : answers_ok s -> answers_ok (next_question s).
Proof. unfold next_question. case_bool_decide; auto with session. Qed.

Lemma save_answer_answers_ok id s s' :
  id ∈ choices_buttons ->
  save_answer (Some id) s = Some s' -> answers_ok s -> answers_ok s'.
Proof.
  intros Hid. unfold save_answer.
  destruct (current_section (test_state s)) as [sec|]; [|done].
  intros Hs'%(inj Some) Hs. subst s'. apply answers_ok_save_progress.
  destruct Hs as [Hmem Hfile]. split; [|exact Hfile].
  intros sec'. cbn. destruct (decide (sec = sec')) as [<-|Hne].
  - rewrite sec_get_set_eq. apply values_in_dict_set; [|apply Hmem].
    by apply answer_letter_choice.
  - rewrite sec_get_set_ne by done. apply Hmem.
Qed.

Lemma load_progress_answers_ok reply s :
  answers_ok s -> answers_ok (load_progress reply s).
Proof.
  intros Hs. unfold load_progress.
  destruct (progress s) as [| |data] eqn:Hfile; [done| |].
  - destruct reply; auto with session.
  - destruct reply; [|auto with session]. cbv zeta.
    destruct (jp_test_state data) as [j|] eqn:Hj; [|auto 10 with session].
    apply (answers_ok_frame (set_test_state (json_load_test_state j) s)); [done..|].
    destruct Hs as [_ Hdisk]. split; [|exact Hdisk].
    intros sec. cbn. destruct (js_user_answers j) as [o|] eqn:Ho.
    + specialize (Hdisk data j o Hfile Hj Ho sec).
      destruct sec; by apply values_in_load.
    + destruct sec; constructor.
Qed.

Lemma startup_answers_ok cfg w reply s0 :
  answers_ok s0 ->
  answers_ok (startup cfg w reply (analytics s0) (progress s0)).
Proof.
  intros Hs0. unfold startup. cbv zeta.
  set (s := App _ _ _ _ _ _ _).
  assert (Hs : answers_ok (load_progress reply s)).
  { apply load_progress_answers_ok. destruct Hs0 as [_ Hdisk].
    split; [intros []; constructor | exact Hdisk]. }
  case_bool_decide; [auto with session|].
  destruct (current_section _); auto 10 with session.
Qed.

Lemma step_answers_ok cfg w e s :
  enabled e s -> answers_ok s -> answers_ok (step cfg w e s).
Proof.
  intros He Hs. destruct e as [|reply| | |checked|reply| | |reply]; cbn [step].
  - unfold start_full_test. cbv zeta. auto 10 with session.
  - by apply update_timer_answers_ok.
  - by apply prev_question_answers_ok.
  - by apply next_question_answers_ok.
  - destruct checked as [id|]; [|done].
    destruct (save_answer (Some id) s) as [s'|] eqn:Hsave; [|done].
    by apply (save_answer_answers_ok id s).
  - by apply submit_section_answers_ok.
  - unfold start_next_section. cbv zeta. auto 10 with session.
  - by apply back_to_menu_answers_ok.
  - by apply startup_answers_ok.
Qed.

Lemma reachable_answers_ok cfg s : reachable cfg s -> answers_ok s.
Proof.
  induction 1 as [w reply a|w e s _ IH He].
  - apply (startup_answers_ok cfg w reply (App a initial_test_state [] 0 false menu_widget NoProgress)).
    split; [intros []; constructor | done].
  - by apply step_answers_ok.
Qed.

(** ** Answer capture (C10) *)

(** C10.  In a reachable state with a section running, checking one of the
    four radio buttons, at position [id] under 4, records, under the
    current index of that section (an [int] key, inside the question set),
    the letter ['A'] plus the button's position: the one-character string
    of code [65 + id], which is the entry at [id] of A, B, C, D; no other
    entry of either answers dictionary changes; and every value then held
    in the answers dictionaries is one of A, B, C, D. *)
Theorem save_answer_records_choice_code cfg s sec id :
  reachable cfg s -> running sec s -> id ∈ choices_buttons ->
  ∃ s', save_answer (Some id) s = Some s'
    ∧ id < 4
    ∧ answer_letter id ∈ choice_codes
    ∧ current_index s < length (questions s)
    ∧ dict_get (KInt (current_index s)) (sec_get sec (user_answers (test_state s')))
      = Some (answer_letter id)
    ∧ (∀ sec' k, (sec', k) ≠ (sec, KInt (current_index s)) ->
         dict_get k (sec_get sec' (user_answers (test_state s')))
         = dict_get k (sec_get sec' (user_answers (test_state s))))
    ∧ (∀ sec', values_in choice_codes (sec_get sec' (user_answers (test_state s'))))
    ∧ dict_get (KInt (current_index s)) (sec_get sec (user_answers (test_state s')))
      = ["A"; "B"; "C"; "D"] !! id
    ∧ dict_get (KInt (current_index s)) (sec_get sec (user_answers (test_state s')))
      = Some (String (ascii_of_nat (65 + id)) EmptyString).
Proof.
  intros Hreach Hrun Hid.
  pose proof (reachable_in_bounds cfg s Hreach) as Hbounds.
  pose proof (reachable_answers_ok cfg s Hreach) as Hok.
  destruct Hrun as (Hph & Hcur & Hpage).
  destruct (save_answer (Some id) s) as [s'|] eqn:Hsave; cycle 1.
  { unfold save_answer in Hsave. by rewrite Hcur in Hsave. }
  exists s'. split; [done|].
  pose proof (save_answer_answers_ok id s s' Hid Hsave Hok) as [Hmem' _].
  unfold save_answer in Hsave. rewrite Hcur in Hsave.
  apply (inj Some) in Hsave. subst s'.
  assert (Hlt : id < 4).
  { unfold choices_buttons in Hid. apply elem_of_seq in Hid. lia. }
  assert (Hstored :
    dict_get (KInt (current_index s))
      (sec_get sec (user_answers (test_state
         (save_progress false (upd_test_state
            (set_user_answers
               (sec_set sec
                  (dict_set (KInt (current_index s)) (answer_letter id)
                     (sec_get sec (user_answers (test_state s))))
                  (user_answers (test_state s)))) s)))))
    = Some (answer_letter id)).
  { cbn. by rewrite sec_get_set_eq, dict_get_set_eq. }
  split_and!.
  - exact Hlt.
  - by apply answer_letter_choice.
  - by destruct (Hbounds sec Hph).
  - exact Hstored.
  - intros sec' k Hne. cbn. destruct (decide (sec = sec')) as [<-|Hsec].
    + rewrite sec_get_set_eq. apply dict_get_set_ne. congruence.
    + by rewrite sec_get_set_ne.
  - exact Hmem'.
  - rewrite Hstored. clear -Hlt. destruct id as [|[|[|[|id]]]]; [done..|lia].
  - rewrite Hstored. reflexivity.
Qed.

Lemma save_answer_records_choice_code_witness :
  let s := step default_config_data example_world Start_full_test first_launch in
  ∃ s', save_answer (Some 2) s = Some s'
    ∧ dict_get (KInt 0) (sec_get RW (user_answers (test_state s'))) = Some "C".
Proof.
  intros s.
  destruct (save_answer_records_choice_code default_config_data s RW 2
              first_section_reachable first_section_running)
    as (s' & Hsave & _ & _ & _ & _ & _ & _ & Hget & _).
  - unfold choices_buttons. apply elem_of_seq. lia.
  - exists s'. split; [exact Hsave | exact Hget].
Defined.

(** ** Runs of events *)

Lemma run_events_reachable cfg w es s :
  reachable cfg s -> all_enabled cfg w es s = true ->
  reachable cfg (run_events cfg w es s).
Proof.
  revert s. induction es as [|e es IH]; intros s Hs Hen; cbn in *; [done|].
  apply andb_true_iff in Hen as [He Hes].
  apply IH; [|done]. apply reachable_step; [done|].
  by apply bool_decide_eq_true in He.
Qed.

Lemma rw_time_up_reachable : reachable default_config_data rw_time_up.
Proof. apply run_events_reachable; [apply reachable_launch | by vm_compute]. Qed.

Lemma break_time_up_reachable : reachable default_config_data break_time_up.
Proof. apply run_events_reachable; [apply reachable_launch | by vm_compute]. Qed.

Lemma math_sixth_question_reachable : reachable default_config_data math_sixth_question.
Proof. apply run_events_reachable; [apply reachable_launch | by vm_compute]. Qed.

Lemma unanswered_math_reachable : reachable default_config_data unanswered_math.
Proof. apply run_events_reachable; [apply reachable_launch | by vm_compute]. Qed.

(** ** Declined submission (C8) *)

(** C8.  When the user answers No to the submit question, the engine only
    stops and restarts the timer: the remaining seconds, the whole test
    state (phase, current section, indices, answers), the question set, the
    analytics, the page shown and the progress file are those of before,
    and the timer is running; a state whose timer was running, as in any
    running section, is returned exactly as it was. *)
Theorem submit_section_declined cfg w s :
  let s' := submit_section cfg w false s in
  s' = set_timer true s
  ∧ remaining_seconds s' = remaining_seconds s
  ∧ test_state s' = test_state s
  ∧ questions s' = questions s
  ∧ analytics s' = analytics s
  ∧ stacked s' = stacked s
  ∧ progress s' = progress s
  ∧ timer s' = true
  ∧ (timer s = true -> s' = s).
Proof.
  destruct s as [a t qs r tm page file]. cbn.
  split_and!; try reflexivity. by intros ->.
Qed.

Lemma submit_section_declined_witness :
  let s := step default_config_data example_world Start_full_test first_launch in
  submit_section default_config_data example_world false s = s.
Proof.
  intros s.
  destruct (submit_section_declined default_config_data example_world s)
    as (_ & _ & _ & _ & _ & _ & _ & _ & Hsame).
  apply Hsame. reflexivity.
Defined.

(** ** Time up (C1, C2) *)

Lemma submit_section_set_timer cfg w reply b s :
  submit_section cfg w reply (set_timer b s) = submit_section cfg w reply s.
Proof. by destruct s. Qed.

(** With no time left the timer slot is a submission: the same question is
    put to the user and the same reply decides. *)
Lemma update_timer_time_up cfg w reply s :
  (remaining_seconds s ≤ 0)%Z ->
  update_timer cfg w reply s = submit_section cfg w reply s.
Proof.
  intros Hz. unfold update_timer. rewrite (proj2 (Z.leb_le _ _) Hz).
  apply submit_section_set_timer.
Qed.

Lemma update_timer_time_up_declined cfg w s :
  (remaining_seconds s ≤ 0)%Z -> timer s = true ->
  update_timer cfg w false s = s.
Proof.
  intros Hz Htimer. rewrite update_timer_time_up by done.
  destruct s as [a t qs r tm page file]. cbn in *. by subst tm.
Qed.


(** During the break the current section is still Reading/Writing, so a
    confirmed submission starts the break again. *)
Lemma update_timer_break_time_up cfg w reply s :
  test_phase (test_state s) = Some PhaseBREAK ->
  current_section (test_state s) = Some RW ->
  (remaining_seconds s ≤ 0)%Z ->
  test_phase (test_state (update_timer cfg w reply s)) = Some PhaseBREAK
  ∧ current_section (test_state (update_timer cfg w reply s)) = Some RW
  ∧ questions (update_timer cfg w reply s) = questions s.
Proof.
  intros Hph Hcur Hz. rewrite update_timer_time_up by done.
  unfold submit_section. cbv zeta. destruct reply.
  - rewrite decide_True by done. done.
  - done.
Qed.

(** The continue button of the break page: with a Math bank to load, the
    Math section runs on a fresh sample, from question 0, with the full
    Math time. *)
Lemma start_next_section_runs_math cfg w s :
  let fresh := load_questions cfg w MATH false in
  fresh ≠ [] ->
  let s' := start_next_section cfg w s in
  running MATH s'
  ∧ questions s' = fresh
  ∧ remaining_seconds s' = (default_time_limits cfg MATH * 60)%Z
  ∧ math_index (test_state s') = 0
  ∧ timer s' = true.
Proof.
  intros fresh Hfresh s'. subst s'.
  unfold start_next_section, start_test_section. cbv zeta. cbn [negb].
  rewrite bool_decide_eq_false_2 by done.
  rewrite show_question_shown.
  - done.
  - unfold current_index. cbn. fold fresh. rewrite decide_False by done.
    destruct fresh; [done | cbn; lia].
Qed.

(** C1.  The Reading/Writing section of a test started on the default
    configuration, 1920 ticks later: no time is left.  The next tick asks
    for a confirmation; answered No, it returns the very same state, the
    section still running with no time left; only answered Yes does it
    enter the break, as a submission does. *)
Theorem time_up_asks_for_confirmation :
  let cfg := default_config_data in
  let w := example_world in
  reachable cfg rw_time_up
  ∧ running RW rw_time_up
  ∧ remaining_seconds rw_time_up = 0%Z
  ∧ timer rw_time_up = true
  ∧ update_timer cfg w false rw_time_up = rw_time_up
  ∧ running RW (update_timer cfg w false rw_time_up)
  ∧ update_timer cfg w true rw_time_up = submit_section cfg w true rw_time_up
  ∧ test_phase (test_state (update_timer cfg w true rw_time_up)) = Some PhaseBREAK.
Proof.
  intros cfg w.
  assert (Hz : remaining_seconds rw_time_up = 0%Z) by (vm_compute; reflexivity).
  assert (Htimer : timer rw_time_up = true) by (vm_compute; reflexivity).
  assert (Hle : (remaining_seconds rw_time_up ≤ 0)%Z).
  { rewrite Hz. exact (Z.le_refl 0). }
  assert (Hno : update_timer cfg w false rw_time_up = rw_time_up).
  { exact (update_timer_time_up_declined cfg w rw_time_up Hle Htimer). }
  assert (Hrun : running RW rw_time_up).
  { unfold running. split_and!; vm_compute; reflexivity. }
  split_and!.
  - exact rw_time_up_reachable.
  - exact Hrun.
  - exact Hz.
  - exact Htimer.
  - exact Hno.
  - rewrite Hno. exact Hrun.
  - exact (update_timer_time_up cfg w true rw_time_up Hle).
  - vm_compute. reflexivity.
Qed.

(** C2.  The break of the same test, 600 ticks after its start: no time is
    left.  The next tick asks for a confirmation; answered Yes, it starts
    the break again with its full ten minutes, Reading/Writing still the
    current section and its questions still loaded; answered No, it
    returns the very same state.  Neither reply starts the Math section. *)
Theorem break_time_up_restarts_break :
  let cfg := default_config_data in
  let w := example_world in
  let again := update_timer cfg w true break_time_up in
  reachable cfg break_time_up
  ∧ test_phase (test_state break_time_up) = Some PhaseBREAK
  ∧ stacked break_time_up = break_widget
  ∧ remaining_seconds break_time_up = 0%Z
  ∧ test_phase (test_state again) = Some PhaseBREAK
  ∧ stacked again = break_widget
  ∧ remaining_seconds again = 600%Z
  ∧ current_section (test_state again) = Some RW
  ∧ questions again = questions break_time_up
  ∧ update_timer cfg w false break_time_up = break_time_up.
Proof.
  intros cfg w again. subst again.
  assert (Hz : remaining_seconds break_time_up = 0%Z) by (vm_compute; reflexivity).
  assert (Htimer : timer break_time_up = true) by (vm_compute; reflexivity).
  assert (Hle : (remaining_seconds break_time_up ≤ 0)%Z).
  { rewrite Hz. exact (Z.le_refl 0). }
  split_and!.
  - exact break_time_up_reachable.
  - vm_compute. reflexivity.
  - vm_compute. reflexivity.
  - exact Hz.
  - vm_compute. reflexivity.
  - vm_compute. reflexivity.
  - vm_compute. reflexivity.
  - vm_compute. reflexivity.
  - vm_compute. reflexivity.
  - exact (update_timer_time_up_declined cfg w break_time_up Hle Htimer).
Qed.

(** ** Resuming (C9, C4) *)

Lemma default_nil_nil {A} (o : option (list A)) :
  o = None ∨ o = Some [] -> default [] o = [].
Proof. by intros [-> | ->]. Qed.

Lemma load_progress_resume a data j :
  jp_test_state data = Some j ->
  load_progress true (App a initial_test_state [] 0 false menu_widget (Progress data))
  = App a (json_load_test_state j) (default [] (jp_questions data))
      (default 0%Z (jp_remaining_seconds data)) false menu_widget (Progress data).
Proof. intros Hj. unfold load_progress. cbn [progress]. by rewrite Hj. Qed.




(** What [load_progress] restores has no [int] key: an answer recorded
    under an index before the save is not found under that index after. *)
Lemma load_progress_no_int_key s data j sec i :
  progress s = Progress data -> jp_test_state data = Some j ->
  dict_get (KInt i) (sec_get sec (user_answers (test_state (load_progress true s))))
  = None.
Proof.
  intros Hfile Hj. unfold load_progress. rewrite Hfile, Hj. cbn.
  destruct (js_user_answers j) as [o|], sec; cbn;
    try apply json_load_no_int_key; done.
Qed.

(** The other members of the snapshot come back as they were saved. *)
Lemma load_progress_save_progress s :
  let s' := load_progress true (save_progress false s) in
  questions s' = questions s
  ∧ remaining_seconds s' = remaining_seconds s
  ∧ current_section (test_state s') = current_section (test_state s)
  ∧ test_phase (test_state s') = test_phase (test_state s)
  ∧ rw_index (test_state s') = rw_index (test_state s)
  ∧ math_index (test_state s') = math_index (test_state s)
  ∧ ∀ sec, sec_get sec (user_answers (test_state s'))
           = json_load_dict (json_dump_dict (sec_get sec (user_answers (test_state s)))).
Proof. cbn. split_and!; try done. by intros []. Qed.

(** C4.  The Math section at its sixth question, with answer B recorded
    for the first Reading/Writing question and C for the sixth Math
    question.  The process is started again on the progress file of that
    state and the user accepts to resume.  The question set, the remaining
    seconds, the phase, the section and both indices are those saved; the
    answers are not: each is now filed under the numeral of its index, a
    string, so the restored test state differs from the saved one and the
    lookup of the answer to the sixth Math question by its index finds
    nothing. *)
Theorem resume_changes_answer_keys :
  let cfg := default_config_data in
  let w := example_world in
  let s := math_sixth_question in
  let s' := step cfg w (Relaunch true) s in
  reachable cfg s
  ∧ running MATH s
  ∧ math_index (test_state s) = 5
  ∧ user_answers (test_state s) = PerSection [(KInt 0, "B")] [(KInt 5, "C")]
  ∧ running MATH s'
  ∧ questions s' = questions s
  ∧ remaining_seconds s' = remaining_seconds s
  ∧ rw_index (test_state s') = rw_index (test_state s)
  ∧ math_index (test_state s') = 5
  ∧ user_answers (test_state s') = PerSection [(KStr "0", "B")] [(KStr "5", "C")]
  ∧ dict_get (KInt 5) (at_MATH (user_answers (test_state s))) = Some "C"
  ∧ dict_get (KInt 5) (at_MATH (user_answers (test_state s'))) = None
  ∧ test_state s' ≠ test_state s.
Proof.
  intros cfg w s s'. subst s s'.
  assert (Hbefore : user_answers (test_state math_sixth_question)
                    = PerSection [(KInt 0, "B")] [(KInt 5, "C")])
    by (vm_compute; reflexivity).
  assert (Hafter :
    user_answers (test_state (step cfg w (Relaunch true) math_sixth_question))
    = PerSection [(KStr "0", "B")] [(KStr "5", "C")])
    by (vm_compute; reflexivity).
  split_and!; try (vm_compute; reflexivity).
  - exact math_sixth_question_reachable.
  - unfold running. split_and!; vm_compute; reflexivity.
  - unfold running. split_and!; vm_compute; reflexivity.
  - intros Heq. rewrite Heq, Hbefore in Hafter. discriminate Hafter.
Qed.

(** ** Weakest categories (C3) *)

Lemma enumerate_from_lookup {A} (l : list A) n i x :
  (i, x) ∈ enumerate_from n l <-> n ≤ i ∧ l !! (i - n) = Some x.
Proof.
  revert n. induction l as [|y l IH]; intros n; cbn [enumerate_from].
  - rewrite elem_of_nil. split; [done | intros [_ Hx]; by rewrite lookup_nil in Hx].
  - rewrite elem_of_cons, IH. split.
    + intros [[= -> ->] | [Hle Hx]].
      * split; [lia|]. by rewrite Nat.sub_diag.
      * split; [lia|]. by replace (i - n) with (S (i - S n)) by lia.
    + intros [Hle Hx]. destruct (decide (i = n)) as [->|Hne].
      * left. rewrite Nat.sub_diag in Hx. cbn in Hx. congruence.
      * right. split; [lia|].
        by replace (i - n) with (S (i - S n)) in Hx by lia.
Qed.

Lemma enumerate_lookup {A} (l : list A) i x :
  (i, x) ∈ enumerate l <-> l !! i = Some x.
Proof.
  unfold enumerate. rewrite enumerate_from_lookup, Nat.sub_0_r.
  split; [by intros [_ ?] | split; [lia | done]].
Qed.

Lemma enumerate_from_NoDup {A} (l : list A) n : NoDup (enumerate_from n l).
Proof.
  revert n. induction l as [|y l IH]; intros n; cbn [enumerate_from].
  - constructor.
  - constructor; [|apply IH].
    rewrite enumerate_from_lookup. lia.
Qed.

Lemma count_incorrect_from (answers : pydict) (qs : list question)
    (weakest : gmap string Z) (category : string) (n : nat) :
  default 0%Z
    (foldl (fun weakest iq =>
              if bool_decide (dict_get (KInt iq.1) answers ≠ None)
                 && bool_decide (dict_get (KInt iq.1) answers ≠ q_answer iq.2)
              then <[category_of iq.2 :=
                       (default 0 (weakest !! category_of iq.2) + 1)%Z]> weakest
              else weakest)
           weakest (enumerate_from n qs) !! category)
  = (default 0 (weakest !! category)
     + Z.of_nat (length
         (filter (fun iq => category_of iq.2 = category
                            ∧ is_Some (dict_get (KInt iq.1) answers)
                            ∧ dict_get (KInt iq.1) answers ≠ q_answer iq.2)
                 (enumerate_from n qs))))%Z.
Proof.
  revert weakest n. induction qs as [|q qs IH]; intros weakest n;
    cbn [enumerate_from foldl].
  - rewrite filter_nil. cbn. lia.
  - rewrite IH. cbn [fst snd].
    destruct (dict_get (KInt n) answers) as [ua|] eqn:Hget.
    + rewrite (bool_decide_eq_true_2 (Some ua ≠ None)) by done. cbn [andb].
      case_bool_decide as Hwrong.
      * destruct (decide (category_of q = category)) as [Hcat|Hcat].
        -- rewrite filter_cons_True by (cbn; rewrite Hget; eauto).
           rewrite Hcat, lookup_insert_eq. cbn [from_option id length]. lia.
        -- rewrite filter_cons_False by (cbn; tauto).
           by rewrite lookup_insert_ne.
      * rewrite filter_cons_False; [done|]. cbn. rewrite Hget. tauto.
    + rewrite (bool_decide_eq_false_2 (None ≠ None)) by tauto. cbn [andb].
      rewrite filter_cons_False; [done|]. cbn. rewrite Hget.
      intros (_ & [? Hsome] & _). discriminate Hsome.
Qed.

Lemma count_incorrect_count (answers : pydict) (qs : list question)
    (weakest : gmap string Z) (category : string) :
  default 0%Z (count_incorrect answers qs weakest !! category)
  = (default 0 (weakest !! category)
     + Z.of_nat (length (answered_wrong answers qs category)))%Z.
Proof. apply count_incorrect_from. Qed.

(** C3, as the code has it.  [update_analytics] adds to the count of a
    category, in a section, the number of questions of the complete bank
    of that section and of that category whose recorded answer exists and
    differs from the correct answer: each of them once, so one per such
    question; a question with no recorded answer is not among them and
    adds nothing, and a question answered wrongly is. *)
Theorem update_analytics_counts_answered_wrong cfg w rw_score math_score s sec category :
  let a' := analytics (update_analytics cfg w rw_score math_score s) in
  let bank_questions := load_questions cfg w sec true in
  let answers := sec_get sec (user_answers (test_state s)) in
  weak_count a' sec category
  = (weak_count (analytics s) sec category
     + Z.of_nat (length (answered_wrong answers bank_questions category)))%Z
  ∧ NoDup (answered_wrong answers bank_questions category)
  ∧ (∀ i q, bank_questions !! i = Some q -> dict_get (KInt i) answers = None ->
       (i, q) ∉ answered_wrong answers bank_questions category)
  ∧ (∀ i q ua, bank_questions !! i = Some q ->
       dict_get (KInt i) answers = Some ua -> Some ua ≠ q_answer q ->
       (i, q) ∈ answered_wrong answers bank_questions (category_of q)).
Proof.
  intros a' bank_questions answers. split_and!.
  - subst a' bank_questions answers. unfold weak_count, update_analytics. cbv zeta.
    destruct sec; cbn [analytics set_analytics weakest_categories sec_get at_RW at_MATH];
      apply count_incorrect_count.
  - apply NoDup_filter, enumerate_from_NoDup.
  - intros i q Hq Hnone Hin. unfold answered_wrong in Hin.
    apply list_elem_of_filter in Hin as [(_ & [ua Hsome] & _) _].
    cbn in Hsome. congruence.
  - intros i q ua Hq Hsome Hwrong. unfold answered_wrong.
    apply list_elem_of_filter. split.
    + cbn. rewrite Hsome. eauto.
    + by apply enumerate_lookup.
Qed.

(** C3, as the claim has it, fails: the first question of the
    Reading/Writing bank is of category Main Idea, the only one, and a
    test ends in which it was given no answer; the count of Main Idea is
    not raised by one. *)
Lemma unanswered_question_not_counted :
  let cfg := default_config_data in
  let w := example_world in
  let s := unanswered_math in
  let a' := analytics (update_analytics cfg w (ScoreData 0 5) (ScoreData 0 8) s) in
  ∃ q, load_questions cfg w RW true !! 0 = Some q
    ∧ category_of q = "Main Idea"
    ∧ dict_get (KInt 0) (sec_get RW (user_answers (test_state s))) = None
    ∧ dict_get (KInt 0) (sec_get RW (user_answers (test_state s))) ≠ q_answer q
    ∧ ¬ (weak_count a' RW "Main Idea"
         = weak_count (analytics s) RW "Main Idea" + 1)%Z.
Proof.
  intros cfg w s a'. eexists. split_and!.
  - vm_compute. reflexivity.
  - vm_compute. reflexivity.
  - vm_compute. reflexivity.
  - vm_compute. discriminate.
  - vm_compute. discriminate.
Qed.

(** ** Running average (C6) *)

(** C6.  For a record whose count of tests is not negative,
    [update_analytics] raises the count by one to [n] and sets each
    section's average to [(old * (n - 1) + pct) / n], where [pct] is
    [correct / total * 100] when [total] is positive and [0] otherwise,
    in Python's arithmetic on [int] and [float].  From a record with no
    test taken and an average of 0, a test that scores 80 percent followed
    by one that scores 60 percent leaves the average at exactly [70.0]. *)
Theorem update_analytics_running_average cfg w rw_score math_score s :
  (0 ≤ tests_taken (analytics s))%Z ->
  let pct d :=
    if (0 <? total d)%Z
    then PyFloat (PrimFloat.mul
                    (PrimFloat.div (float_of_Z (correct d)) (float_of_Z (total d)))
                    (float_of_Z 100))
    else PyInt 0 in
  let old := average_scores (analytics s) in
  let s1 := update_analytics cfg w rw_score math_score s in
  let n := tests_taken (analytics s1) in
  n = (tests_taken (analytics s) + 1)%Z
  ∧ at_RW (average_scores (analytics s1))
    = py_truediv (py_add (py_mul (at_RW old) (PyInt (n - 1))) (pct rw_score)) (PyInt n)
  ∧ at_MATH (average_scores (analytics s1))
    = py_truediv (py_add (py_mul (at_MATH old) (PyInt (n - 1))) (pct math_score)) (PyInt n)
  ∧ ∀ w2 rw_score2 math_score2,
      tests_taken (analytics s) = 0%Z ->
      at_RW old = PyInt 0 ->
      pct rw_score = PyFloat 80 ->
      pct rw_score2 = PyFloat 60 ->
      at_RW (average_scores (analytics (update_analytics cfg w2 rw_score2 math_score2 s1)))
      = PyFloat 70.
Proof.
  intros Htests pct old s1 n.
  assert (Hpct : ∀ d, percentage d = pct d) by reflexivity.
  assert (Hn : n = (tests_taken (analytics s) + 1)%Z) by reflexivity.
  assert (Hpos : (0 <? n)%Z = true) by (apply Z.ltb_lt; lia).
  assert (Hrw : at_RW (average_scores (analytics s1))
                = new_average (at_RW old) n (pct rw_score)) by reflexivity.
  assert (Hmath : at_MATH (average_scores (analytics s1))
                  = new_average (at_MATH old) n (pct math_score)) by reflexivity.
  unfold new_average in Hrw, Hmath. rewrite Hpos in Hrw, Hmath.
  split_and!; try done.
  intros w2 rw_score2 math_score2 Hzero Hold H80 H60.
  change (at_RW (average_scores (analytics (update_analytics cfg w2 rw_score2 math_score2 s1))))
    with (new_average (at_RW (average_scores (analytics s1))) (n + 1) (pct rw_score2)).
  rewrite Hrw, Hold, H80, H60, Hn, Hzero.
  vm_compute. reflexivity.
Qed.

Lemma update_analytics_running_average_witness :
  let cfg := default_config_data in
  let w := example_world in
  let first_test := update_analytics cfg w (ScoreData 4 5) (ScoreData 0 0) first_launch in
  let second_test := update_analytics cfg w (ScoreData 3 5) (ScoreData 0 0) first_test in
  at_RW (average_scores (analytics first_test)) = PyFloat 80
  ∧ at_RW (average_scores (analytics second_test)) = PyFloat 70.
Proof.
  intros cfg w first_test second_test. subst first_test second_test.
  destruct (update_analytics_running_average cfg w (ScoreData 4 5) (ScoreData 0 0)
              first_launch)
    as (_ & Hfirst & _ & Htwo).
  - vm_compute. discriminate.
  - split.
    + rewrite Hfirst. vm_compute. reflexivity.
    + apply Htwo; vm_compute; reflexivity.
Defined.

(** ** The scenarios of the specification, run *)

(** Five valid and three malformed entries, 27 questions asked for: the
    five valid ones come back. *)
Lemma load_questions_sampled_witness :
  let loaded := load_questions default_config_data example_world RW false in
  length loaded = 5 ∧ loaded ≡ₚ dummy_rw_questions.
Proof.
  intros loaded. subst loaded.
  destruct (load_questions_sampled default_config_data example_world RW mixed_rw_pool)
    as (Hlen & _ & _ & Hall).
  - reflexivity.
  - vm_compute. discriminate.
  - split.
    + apply Nat2Z.inj. rewrite Hlen. vm_compute. reflexivity.
    + apply Hall. vm_compute. discriminate.
Defined.

(** Question 0 answered B where C is correct, category Main Idea: the
    count of Main Idea goes from 0 to 1. *)
Lemma update_analytics_counts_answered_wrong_witness :
  let s := math_sixth_question in
  let a' := analytics (update_analytics default_config_data example_world
                         (ScoreData 0 5) (ScoreData 0 8) s) in
  weak_count (analytics s) RW "Main Idea" = 0%Z
  ∧ weak_count a' RW "Main Idea" = 1%Z.
Proof.
  intros s a'. subst s a'.
  destruct (update_analytics_counts_answered_wrong default_config_data example_world
              (ScoreData 0 5) (ScoreData 0 8) math_sixth_question RW "Main Idea")
    as (Hcount & _).
  split.
  - vm_compute. reflexivity.
  - rewrite Hcount. vm_compute. reflexivity.
Defined.

(** * Further properties of the code *)

(** ** Loader *)

Lemma load_questions_complete cfg w sec :
  load_questions cfg w sec true
  = filter (fun q => is_valid q)
      (match bank w sec with BankJSON (Some pool) => pool | _ => [] end).
Proof.
  unfold load_questions. destruct (bank w sec) as [| |[pool|]]; try done.
  change (default [] (Some pool)) with pool. by case_bool_decide.
Qed.

Lemma load_questions_sampled_from cfg w sec :
  load_questions cfg w sec false = []
  ∨ ∃ k, load_questions cfg w sec false
         = random_sample (draws w) (load_questions cfg w sec true) k
         ∧ Z.of_nat k = Z.min (Z.of_nat (length (load_questions cfg w sec true)))
                              (total_questions cfg sec).
Proof.
  unfold load_questions. destruct (bank w sec) as [| |data]; [by left..|].
  case_bool_decide; [by left|].
  destruct (_ <? 0)%Z eqn:Hneg; [by left|]. apply Z.ltb_ge in Hneg.
  right. eexists. split; [done|]. by rewrite Z2Nat.id.
Qed.

(** X1.  A section has questions to run exactly when its bank has a valid
    entry and the configured number of questions is positive: the sampled
    load is empty if and only if the complete load is empty or the
    configured number is zero or negative.  A missing file, a file that is
    not JSON and a file without the member "questions" all give the empty
    complete load. *)
Theorem sampled_load_empty_iff cfg w sec :
  (load_questions cfg w sec false = []
   <-> load_questions cfg w sec true = [] ∨ (total_questions cfg sec ≤ 0)%Z)
  ∧ (bank w sec = FileNotFound ∨ bank w sec = InvalidJSON ∨ bank w sec = BankJSON None ->
     load_questions cfg w sec true = []).
Proof.
  split.
  - destruct (load_questions_sampled_from cfg w sec) as [Hnil | (k & Hk & Hmin)].
    + split; [|done]. intros _. revert Hnil. unfold load_questions.
      destruct (bank w sec) as [| |data]; [by left..|].
      case_bool_decide as Hvalid; [by left|]. intros Hnil. right.
      destruct (_ <? 0)%Z eqn:Hneg.
      * apply Z.ltb_lt in Hneg. lia.
      * apply Z.ltb_ge in Hneg. apply (f_equal length) in Hnil.
        rewrite random_sample_length in Hnil. cbn in Hnil.
        destruct (filter _ _) as [|q valid]; [done|]. cbn in *. lia.
    + rewrite Hk. split.
      * intros Hnil. apply (f_equal length) in Hnil.
        rewrite random_sample_length in Hnil. cbn in Hnil.
        destruct (load_questions cfg w sec true) as [|q qs]; [by left|].
        right. cbn in *. lia.
      * intros [Hnil | Hn].
        -- rewrite Hnil. by destruct k.
        -- assert (k = 0) as -> by lia. done.
  - intros [Hb | [Hb | Hb]]; unfold load_questions; by rewrite Hb.
Qed.

(** X2.  Whatever the configuration and the draws, the questions of a
    session are questions of the complete bank, none taken more often than
    the bank holds it: the sampled load is a sub-multiset of the complete
    load, which is the valid entries of the file in file order.  A bank
    without repeated entries gives a session without repeated questions. *)
Theorem sampled_load_within_complete_bank cfg w sec :
  load_questions cfg w sec false ⊆+ load_questions cfg w sec true
  ∧ (∀ pool, bank w sec = BankJSON (Some pool) ->
       load_questions cfg w sec true `sublist_of` pool)
  ∧ (NoDup (load_questions cfg w sec true) -> NoDup (load_questions cfg w sec false)).
Proof.
  assert (Hsub : load_questions cfg w sec false ⊆+ load_questions cfg w sec true).
  { destruct (load_questions_sampled_from cfg w sec) as [-> | (k & -> & _)].
    - apply submseteq_nil_l.
    - apply random_sample_submseteq. }
  split_and!; [done | |].
  - intros pool Hpool. rewrite load_questions_complete, Hpool. apply sublist_filter.
  - intros Hnodup. apply submseteq_Permutation in Hsub as [rest Hperm].
    rewrite Hperm in Hnodup. by apply NoDup_app in Hnodup as [? _].
Qed.

Lemma sampled_load_within_complete_bank_witness :
  NoDup (load_questions default_config_data example_world MATH false).
Proof.
  destruct (sampled_load_within_complete_bank default_config_data example_world MATH)
    as (_ & _ & Hnodup).
  apply Hnodup. apply (bool_decide_unpack _). vm_compute. exact I.
Defined.

(** ** Starting a test *)

Lemma save_progress_snapshot s :
  progress (save_progress false s) = Progress (snapshot_of s)
  ∧ snapshot_of (save_progress false s) = snapshot_of s.
Proof. done. Qed.



(** ** Starting the process on a progress file *)

(** X4.  A progress file saved in a running section, with its question
    set, every question of it with its text and its options as the engine
    saves them, and an index that points into it, is resumed as saved: the
    section runs on the saved questions at the saved index with the saved
    remaining seconds and the saved test state, the timer started.  The
    question banks are not read: the resumed state is the same in every
    environment. *)
Theorem resume_keeps_saved_session cfg w a data j sec qs :
  jp_test_state data = Some j ->
  js_current_section j = Some sec ->
  js_test_phase j = Some (phase_of sec) ->
  jp_questions data = Some qs ->
  Forall (fun q => is_Some (q_question q) ∧ is_Some (q_options q)) qs ->
  match sec with
  | RW => default 0 (js_rw_index j)
  | MATH => default 0 (js_math_index j)
  end < length qs ->
  let s' := startup cfg w true a (Progress data) in
  running sec s'
  ∧ questions s' = qs
  ∧ remaining_seconds s' = default 0%Z (jp_remaining_seconds data)
  ∧ test_state s' = json_load_test_state j
  ∧ timer s' = true
  ∧ analytics s' = a
  ∧ (∀ w', startup cfg w' true a (Progress data) = s')
  ∧ ∃ q, questions s' !! current_index s' = Some q
         ∧ is_Some (q_question q) ∧ is_Some (q_options q).
Proof.
  intros Hj Hcur Hph Hqs Hshape Hidx s'.
  assert (Hqs0 : qs ≠ []) by (intros ->; cbn in Hidx; lia).
  assert (Hs' : ∀ w', startup cfg w' true a (Progress data) =
    save_progress false (set_stacked test_widget (set_timer true
      (App a (json_load_test_state j) qs
         (default 0%Z (jp_remaining_seconds data)) false menu_widget (Progress data))))).
  { intros w'. unfold startup. cbv zeta.
    rewrite (load_progress_resume a data j Hj), Hqs.
    cbn [test_state test_phase current_section json_load_test_state].
    rewrite Hph, Hcur. rewrite bool_decide_eq_false_2 by (by destruct sec).
    unfold start_test_section. cbv zeta. cbn [negb].
    rewrite (bool_decide_eq_false_2 (questions _ = [])) by done.
    rewrite show_question_shown.
    - unfold upd_test_state, set_test_state, set_current_section, set_test_phase,
        json_load_test_state.
      cbn. by rewrite Hcur, Hph.
    - unfold current_index. cbn.
      destruct sec; [rewrite decide_True by done | rewrite decide_False by done]; done. }
  assert (Hcurrent : current_index (startup cfg w true a (Progress data))
                     = match sec with
                       | RW => default 0 (js_rw_index j)
                       | MATH => default 0 (js_math_index j)
                       end).
  { rewrite (Hs' w). unfold current_index. cbn. rewrite Hcur.
    destruct sec; [by rewrite decide_True | by rewrite decide_False]. }
  assert (Hshown : ∃ q, questions (startup cfg w true a (Progress data))
                          !! current_index (startup cfg w true a (Progress data)) = Some q
                        ∧ is_Some (q_question q) ∧ is_Some (q_options q)).
  { rewrite Hcurrent. rewrite (Hs' w).
    change (questions (save_progress false _)) with qs.
    destruct (lookup_lt_is_Some_2 qs _ Hidx) as [q Hq].
    exists q. split; [exact Hq|]. by apply (Forall_lookup_1 _ _ _ _ Hshape Hq). }
  subst s'. split_and!; [..|exact Hshown]; rewrite (Hs' w); unfold running; cbn;
    rewrite ?Hph, ?Hcur; done.
Qed.

(** A progress file as the engine writes it in the Math section. *)
Lemma resume_keeps_saved_session_witness :
  let s := math_sixth_question in
  let s' := startup default_config_data example_world true default_analytics
              (Progress (snapshot_of s)) in
  questions s' = questions s ∧ remaining_seconds s' = 2100%Z ∧ running MATH s'.
Proof.
  intros s s'.
  destruct (resume_keeps_saved_session default_config_data example_world
              default_analytics (snapshot_of s)
              (json_dump_test_state (test_state s)) MATH (questions s))
    as (Hrun & Hqs & Htime & _); try reflexivity.
  - apply (bool_decide_unpack _). vm_compute. exact I.
  - vm_compute. lia.
  - split_and!; [exact Hqs | | exact Hrun].
    subst s'. rewrite Htime. vm_compute. reflexivity.
Defined.





(** ** The countdown *)

Lemma update_timer_counts_down cfg w reply s :
  (0 < remaining_seconds s)%Z ->
  update_timer cfg w reply s
  = let s1 := set_remaining_seconds (remaining_seconds s - 1) s in
    if bool_decide (test_phase (test_state s) = Some PhaseRW)
       || bool_decide (test_phase (test_state s) = Some PhaseMATH)
    then save_progress false s1 else s1.
Proof.
  intros Hpos. unfold update_timer.
  by rewrite (proj2 (Z.leb_gt _ _) Hpos).
Qed.



(** *** The remaining time is never negative *)

Lemma time_not_negative_frame s s' :
  remaining_seconds s' = remaining_seconds s -> progress s' = progress s ->
  time_not_negative s -> time_not_negative s'.
Proof. unfold time_not_negative. intros -> ->. done. Qed.

Lemma time_not_negative_set r s :
  (0 ≤ r)%Z -> time_not_negative s -> time_not_negative (set_remaining_seconds r s).
Proof. intros Hr [_ Hfile]. split; [exact Hr | exact Hfile]. Qed.

Lemma time_not_negative_save delete s :
  time_not_negative s -> time_not_negative (save_progress delete s).
Proof.
  intros [Hmem _]. split; [by destruct delete|].
  destruct delete; cbn; [done|]. by intros data r [= <-] [= <-].
Qed.

#[local] Hint Resolve time_not_negative_save : session.
#[local] Hint Extern 2 (time_not_negative (set_remaining_seconds _ _)) =>
  apply time_not_negative_set; [first [assumption | lia] |] : session.
#[local] Hint Extern 1 (time_not_negative (_ _ ?s)) =>
  apply (time_not_negative_frame s); [reflexivity | reflexivity |] : session.

Lemma back_to_menu_time s : time_not_negative s -> time_not_negative (back_to_menu s).
Proof. unfold back_to_menu. cbv zeta. auto 10 with session. Qed.
#[local] Hint Resolve back_to_menu_time : session.

Lemma show_question_time s : time_not_negative s -> time_not_negative (show_question s).
Proof. unfold show_question. destruct (_ || _); auto with session. Qed.
#[local] Hint Resolve show_question_time : session.

Lemma set_current_index_time val s :
  time_not_negative s -> time_not_negative (set_current_index val s).
Proof. unfold set_current_index. case_decide; auto 10 with session. Qed.
#[local] Hint Resolve set_current_index_time : session.

Lemma start_test_section_time cfg w sec resume s :
  durations_ok cfg ->
  time_not_negative s -> time_not_negative (start_test_section cfg w sec resume s).
Proof.
  intros [Hlimit _] Hs. specialize (Hlimit sec).
  assert (0 ≤ default_time_limits cfg sec * 60)%Z by lia.
  unfold start_test_section. cbv zeta.
  destruct resume, sec; cbn [negb]; repeat case_bool_decide; auto 20 with session.
Qed.

Lemma start_break_time cfg s :
  durations_ok cfg -> time_not_negative s -> time_not_negative (start_break cfg s).
Proof.
  intros [_ Hbreak] Hs.
  assert (0 ≤ default 10 (break_duration_minutes cfg) * 60)%Z by lia.
  unfold start_break. cbv zeta. auto 10 with session.
Qed.

Lemma show_results_time cfg w s :
  time_not_negative s -> time_not_negative (show_results cfg w s).
Proof.
  intros Hs. unfold show_results. cbv zeta.
  apply (time_not_negative_frame (save_progress true s)); [done | done |].
  auto with session.
Qed.

Lemma submit_section_time cfg w reply s :
  durations_ok cfg ->
  time_not_negative s -> time_not_negative (submit_section cfg w reply s).
Proof.
  intros Hcfg Hs. unfold submit_section. cbv zeta.
  destruct reply; [case_decide|].
  - apply start_break_time; auto with session.
  - apply show_results_time; auto with session.
  - auto 10 with session.
Qed.

Lemma update_timer_time cfg w reply s :
  durations_ok cfg ->
  time_not_negative s -> time_not_negative (update_timer cfg w reply s).
Proof.
  intros Hcfg Hs. unfold update_timer. cbv zeta.
  destruct (_ <=? _)%Z eqn:Hle.
  - apply submit_section_time; auto with session.
  - apply Z.leb_gt in Hle.
    assert (0 ≤ remaining_seconds s - 1)%Z by lia.
    destruct (_ || _); auto 10 with session.
Qed.

Lemma load_progress_time reply s :
  time_not_negative s -> time_not_negative (load_progress reply s).
Proof.
  intros Hs. unfold load_progress.
  destruct (progress s) as [| |data] eqn:Hfile; [done| |].
  - destruct reply; auto with session.
  - destruct reply; [|auto with session]. cbv zeta.
    assert (0 ≤ default 0 (jp_remaining_seconds data))%Z.
    { destruct (jp_remaining_seconds data) as [r|] eqn:Hr; [|done].
      destruct Hs as [_ Hdisk]. by apply (Hdisk data r). }
    destruct (jp_test_state data); auto 10 with session.
Qed.

Lemma startup_time cfg w reply s0 :
  durations_ok cfg ->
  time_not_negative s0 ->
  time_not_negative (startup cfg w reply (analytics s0) (progress s0)).
Proof.
  intros Hcfg Hs0. unfold startup. cbv zeta.
  set (s := App _ _ _ _ _ _ _).
  assert (Hs : time_not_negative (load_progress reply s)).
  { apply load_progress_time. destruct Hs0 as [_ Hdisk]. split; [done | exact Hdisk]. }
  case_bool_decide; [by apply start_break_time|].
  destruct (current_section _); [by apply start_test_section_time|].
  auto 10 with session.
Qed.

Lemma step_time cfg w e s :
  durations_ok cfg -> time_not_negative s -> time_not_negative (step cfg w e s).
Proof.
  intros Hcfg Hs. destruct e as [|reply| | |checked|reply| | |reply]; cbn [step].
  - unfold start_full_test. cbv zeta.
    apply start_test_section_time; auto 10 with session.
  - by apply update_timer_time.
  - unfold prev_question. case_bool_decide; auto with session.
  - unfold next_question. case_bool_decide; auto with session.
  - unfold save_answer. destruct checked as [b|]; [|done].
    destruct (current_section _); [|done]. cbn [from_option]. unfold id.
    auto 10 with session.
  - by apply submit_section_time.
  - unfold start_next_section. cbv zeta.
    apply start_test_section_time; auto 10 with session.
  - by apply back_to_menu_time.
  - by apply startup_time.
Qed.

(** X8.  With a configuration whose time limits and break duration are
    not negative, the remaining time is never negative: in every
    reachable state, in memory and in the progress file. *)
Theorem remaining_seconds_never_negative cfg s :
  durations_ok cfg -> reachable cfg s ->
  (0 ≤ remaining_seconds s)%Z
  ∧ ∀ data r, progress s = Progress data -> jp_remaining_seconds data = Some r ->
      (0 ≤ r)%Z.
Proof.
  intros Hcfg. induction 1 as [w reply a|w e s _ IH _].
  - apply (startup_time cfg w reply
             (App a initial_test_state [] 0 false menu_widget NoProgress)); [done|].
    split; [done | by intros data r [=]].
  - by apply step_time.
Qed.

Lemma default_durations_ok : durations_ok default_config_data.
Proof. split; [by intros [] | done]. Defined.

Lemma remaining_seconds_never_negative_witness :
  (0 ≤ remaining_seconds
         (step default_config_data example_world Start_full_test first_launch))%Z.
Proof.
  exact (proj1 (remaining_seconds_never_negative default_config_data _
                  default_durations_ok first_section_reachable)).
Defined.

(** ** The progress file of a running section *)

Lemma progress_saved_save s : progress_saved (save_progress false s).
Proof. by intros sec _. Qed.

Lemma progress_saved_not_running s :
  (∀ sec, ¬ running sec s) -> progress_saved s.
Proof. intros Hnot sec Hrun. by destruct (Hnot sec). Qed.

Lemma not_running_phase s ph :
  test_phase (test_state s) = Some ph -> ph = PhaseBREAK ∨ ph = PhaseMENU ->
  ∀ sec, ¬ running sec s.
Proof.
  intros Hph Hor sec (Hrun & _). rewrite Hph in Hrun.
  destruct Hor as [-> | ->], sec; cbn in Hrun; congruence.
Qed.

Lemma not_running_page s :
  stacked s ≠ test_widget -> ∀ sec, ¬ running sec s.
Proof. intros Hpage sec (_ & _ & Hrun). done. Qed.

Lemma progress_saved_frame s s' :
  test_state s' = test_state s -> questions s' = questions s ->
  remaining_seconds s' = remaining_seconds s -> stacked s' = stacked s ->
  progress s' = progress s ->
  progress_saved s -> progress_saved s'.
Proof.
  unfold progress_saved, running, snapshot_of. intros -> -> -> -> ->. done.
Qed.

Lemma back_to_menu_saved s : progress_saved (back_to_menu s).
Proof.
  apply progress_saved_not_running, (not_running_phase _ PhaseMENU); [done | by right].
Qed.

Lemma show_question_cases s : show_question s = s ∨ show_question s = back_to_menu s.
Proof. unfold show_question. destruct (_ || _); [by right | by left]. Qed.

Lemma start_test_section_saved cfg w sec resume s :
  progress_saved (start_test_section cfg w sec resume s).
Proof.
  unfold start_test_section. cbv zeta.
  destruct resume; cbn [negb]; repeat case_bool_decide;
    first [ apply progress_saved_save
          | apply progress_saved_not_running, (not_running_phase _ PhaseMENU);
            [done | by right] ].
Qed.

Lemma start_break_saved cfg s : progress_saved (start_break cfg s).
Proof.
  apply progress_saved_not_running, (not_running_phase _ PhaseBREAK); [done | by left].
Qed.

Lemma show_results_saved cfg w s : progress_saved (show_results cfg w s).
Proof. by apply progress_saved_not_running, not_running_page. Qed.

Lemma submit_section_saved cfg w reply s :
  progress_saved s -> progress_saved (submit_section cfg w reply s).
Proof.
  intros Hs. unfold submit_section. cbv zeta. destruct reply; [case_decide|].
  - apply start_break_saved.
  - apply show_results_saved.
  - revert Hs. by apply progress_saved_frame.
Qed.

Lemma update_timer_saved cfg w reply s :
  progress_saved s -> progress_saved (update_timer cfg w reply s).
Proof.
  intros Hs. unfold update_timer. cbv zeta. destruct (_ <=? _)%Z.
  - apply submit_section_saved. revert Hs. by apply progress_saved_frame.
  - destruct (_ || _) eqn:Hphase; [apply progress_saved_save|].
    apply orb_false_iff in Hphase as [Hrw Hmath].
    apply bool_decide_eq_false in Hrw, Hmath.
    intros sec (Hph & _). cbn in Hph. destruct sec; done.
Qed.

Lemma navigate_saved val s :
  progress_saved (show_question (set_current_index val s)).
Proof.
  destruct (show_question_cases (set_current_index val s)) as [-> | ->].
  - apply progress_saved_save.
  - apply back_to_menu_saved.
Qed.

Lemma startup_saved cfg w reply a p : progress_saved (startup cfg w reply a p).
Proof.
  unfold startup. cbv zeta. case_bool_decide.
  - apply start_break_saved.
  - destruct (current_section _).
    + apply start_test_section_saved.
    + apply progress_saved_not_running, (not_running_phase _ PhaseMENU); [done | by right].
Qed.

Lemma step_saved cfg w e s : progress_saved s -> progress_saved (step cfg w e s).
Proof.
  intros Hs. destruct e as [|reply| | |checked|reply| | |reply]; cbn [step].
  - apply start_test_section_saved.
  - by apply update_timer_saved.
  - unfold prev_question. case_bool_decide; [apply navigate_saved | done].
  - unfold next_question. case_bool_decide; [apply navigate_saved | done].
  - unfold save_answer. destruct checked as [b|]; [|done].
    destruct (current_section _); [|done]. apply progress_saved_save.
  - by apply submit_section_saved.
  - apply start_test_section_saved.
  - apply back_to_menu_saved.
  - apply startup_saved.
Qed.

Lemma reachable_progress_saved cfg s : reachable cfg s -> progress_saved s.
Proof.
  induction 1 as [w reply a|w e s _ IH _].
  - apply startup_saved.
  - by apply step_saved.
Qed.



(** ** Interruption and resumption of a running section *)

Lemma startup_resumes_section cfg w a data j sec qs :
  jp_test_state data = Some j ->
  js_current_section j = Some sec ->
  js_test_phase j = Some (phase_of sec) ->
  jp_questions data = Some qs ->
  match sec with
  | RW => default 0 (js_rw_index j)
  | MATH => default 0 (js_math_index j)
  end < length qs ->
  startup cfg w true a (Progress data)
  = save_progress false (set_stacked test_widget (set_timer true
      (App a (json_load_test_state j) qs
         (default 0%Z (jp_remaining_seconds data)) false menu_widget (Progress data)))).
Proof.
  intros Hj Hcur Hph Hqs Hidx.
  assert (Hqs0 : qs ≠ []) by (intros ->; cbn in Hidx; lia).
  unfold startup. cbv zeta.
  rewrite (load_progress_resume a data j Hj), Hqs.
  cbn [test_state test_phase current_section json_load_test_state].
  rewrite Hph, Hcur. rewrite bool_decide_eq_false_2 by (by destruct sec).
  unfold start_test_section. cbv zeta. cbn [negb].
  rewrite (bool_decide_eq_false_2 (questions _ = [])) by done.
  rewrite show_question_shown.
  - unfold upd_test_state, set_test_state, set_current_section, set_test_phase,
      json_load_test_state.
    cbn. by rewrite Hcur, Hph.
  - unfold current_index. cbn.
    destruct sec; [rewrite decide_True by done | rewrite decide_False by done]; done.
Qed.



(** ** Navigation back and forth *)

Lemma set_current_index_back val s sec :
  running sec s -> progress s = Progress (snapshot_of s) ->
  set_current_index (current_index s) (set_current_index val s) = s.
Proof.
  intros (_ & Hcur & _) Hfile.
  destruct s as [a t qs r tm page file]. destruct t as [cs cm ri mi ua st el ph].
  unfold snapshot_of in Hfile. cbn in Hcur, Hfile. subst cs file.
  unfold set_current_index, current_index, snapshot_of.
  destruct sec; reflexivity.
Qed.



(** ** Answers: overwriting, display, and the JSON round trip *)

Lemma dict_set_set {K V} `{EqDecision K} (k : K) (v v' : V) (d : list (K * V)) :
  dict_set k v' (dict_set k v d) = dict_set k v' d.
Proof.
  induction d as [|[k0 v0] d IH]; cbn.
  - by rewrite decide_True.
  - destruct (decide (k = k0)) as [->|Hne]; cbn.
    + by rewrite decide_True.
    + rewrite decide_False by done. by rewrite IH.
Qed.

Lemma sec_set_set {A} sec (v v' : A) p : sec_set sec v' (sec_set sec v p) = sec_set sec v' p.
Proof. by destruct sec. Qed.

(** X12.  Choosing again on the same question overwrites: after one
    choice, a second choice leaves exactly the state that the second
    choice alone would have left, progress file included; in particular
    the same choice made twice changes nothing the second time. *)
Theorem save_answer_overwrites a b s s1 :
  save_answer (Some a) s = Some s1 ->
  save_answer (Some b) s1 = save_answer (Some b) s
  ∧ save_answer (Some a) s1 = Some s1.
Proof.
  intros Hsave. pose proof Hsave as Hdef. unfold save_answer in Hdef.
  destruct (current_section (test_state s)) as [sec|] eqn:Hsec; [|done].
  apply (inj Some) in Hdef.
  assert (Hover : ∀ c, save_answer (Some c) s1 = save_answer (Some c) s).
  { intros c. subst s1. unfold save_answer, current_index. cbn. rewrite Hsec.
    by rewrite sec_get_set_eq, dict_set_set, sec_set_set. }
  split; [apply Hover | rewrite Hover; exact Hsave].
Qed.

Lemma save_answer_overwrites_witness :
  let s := step default_config_data example_world Start_full_test first_launch in
  ∃ s1, save_answer (Some 0) s = Some s1
        ∧ save_answer (Some 3) s1 = save_answer (Some 3) s.
Proof.
  intros s.
  destruct (save_answer (Some 0) s) as [s1|] eqn:Hs1;
    [|vm_compute in Hs1; discriminate Hs1].
  exists s1. split; [reflexivity|].
  exact (proj1 (save_answer_overwrites 0 3 s s1 Hs1)).
Defined.

Lemma selected_idx_answer_letter b :
  b ∈ choices_buttons -> selected_idx (Some (answer_letter b)) = Some b.
Proof.
  unfold choices_buttons. intros Hb%elem_of_seq.
  destruct b as [|[|[|[|b]]]]; [done..|lia].
Qed.

Lemma selected_idx_inv ans i :
  selected_idx ans = Some i -> i ∈ choices_buttons ∧ ans = Some (answer_letter i).
Proof.
  destruct ans as [[|c [|c' rest]]|]; cbn; try done.
  destruct (bool_decide _ && bool_decide _) eqn:Hrange; [|done].
  apply andb_true_iff in Hrange as [Hlo%bool_decide_eq_true Hhi%bool_decide_eq_true].
  intros [= <-]. cbn in Hhi. split.
  - apply (proj2 (elem_of_seq 0 4 _)). lia.
  - unfold answer_letter. do 2 f_equal.
    replace (nat_of_ascii "A" + Z.to_nat (Z.of_nat (nat_of_ascii c) - Z.of_nat (nat_of_ascii "A")))
      with (nat_of_ascii c) by lia.
    by rewrite ascii_nat_embedding.
Qed.

(** X13.  The letter code and the button position are each other's
    inverse on the four buttons, and the test page shows what was saved:
    the letter written for a checked button is read back as that button,
    a stored answer that selects a button is the letter of that button,
    and right after [save_answer] the current question shows the button
    just checked.  A question without a stored answer shows none. *)
Theorem saved_answer_is_shown b s s' :
  b ∈ choices_buttons ->
  save_answer (Some b) s = Some s' ->
  selected_idx (Some (answer_letter b)) = Some b
  ∧ (∀ ans i, selected_idx ans = Some i ->
       i ∈ choices_buttons ∧ ans = Some (answer_letter i))
  ∧ checked_button s' = Some b
  ∧ (∀ sec, current_section (test_state s) = Some sec ->
       dict_get (KInt (current_index s)) (sec_get sec (user_answers (test_state s))) = None ->
       checked_button s = None).
Proof.
  intros Hb Hsave. split_and!.
  - by apply selected_idx_answer_letter.
  - apply selected_idx_inv.
  - unfold save_answer in Hsave.
    destruct (current_section (test_state s)) as [sec|] eqn:Hsec; [|done].
    apply (inj Some) in Hsave. subst s'.
    unfold checked_button, current_index. cbn. rewrite Hsec.
    rewrite sec_get_set_eq, dict_get_set_eq.
    by apply selected_idx_answer_letter.
  - intros sec Hsec Hnone. unfold checked_button. by rewrite Hsec, Hnone.
Qed.

Lemma saved_answer_is_shown_witness :
  let s := step default_config_data example_world Start_full_test first_launch in
  ∃ s', save_answer (Some 2) s = Some s' ∧ checked_button s' = Some 2.
Proof.
  intros s.
  destruct (save_answer (Some 2) s) as [s'|] eqn:Hs';
    [|vm_compute in Hs'; discriminate Hs'].
  exists s'. split; [reflexivity|].
  destruct (saved_answer_is_shown 2 s s') as (_ & _ & Hshown & _);
    [unfold choices_buttons; apply elem_of_seq; lia | exact Hs' | exact Hshown].
Defined.

Lemma dict_set_fresh {K V} `{EqDecision K} (k : K) (v : V) (d : list (K * V)) :
  k ∉ d.*1 -> dict_set k v d = (d ++ [(k, v)])%list.
Proof.
  induction d as [|[k0 v0] d IH]; cbn; [done|].
  rewrite not_elem_of_cons. intros [Hne Hnotin].
  rewrite decide_False by done. by rewrite IH.
Qed.

Lemma json_load_from_fresh (o : json_object) (acc : pydict) :
  NoDup (acc.*1 ++ (KStr <$> o.*1))%list ->
  foldl (fun d kv => dict_set (KStr kv.1) kv.2 d) acc o
  = (acc ++ ((fun kv => (KStr kv.1, kv.2)) <$> o))%list.
Proof.
  revert acc. induction o as [|[k v] o IH]; intros acc Hnodup; cbn.
  - by rewrite app_nil_r.
  - cbn in Hnodup. apply NoDup_app in Hnodup as (Hacc & Hdisj & Ho).
    apply NoDup_cons in Ho as [Hk Ho].
    rewrite dict_set_fresh by (intros Hin; apply (Hdisj _ Hin); left).
    rewrite IH.
    + by rewrite <- app_assoc.
    + rewrite fmap_app. cbn. rewrite <- app_assoc. cbn.
      apply NoDup_app. split_and!; [done | | by constructor].
      intros x Hx. rewrite elem_of_cons. intros [-> | Hin].
      * apply (Hdisj _ Hx). left.
      * apply (Hdisj _ Hx). by right.
Qed.

Lemma json_round_trip_int_keyed (d : pydict) :
  int_keyed d ->
  json_load_dict (json_dump_dict d) = (fun kv => (KStr (key_str kv.1), kv.2)) <$> d.
Proof.
  intros [Hnodup Hint]. unfold json_load_dict. rewrite json_load_from_fresh.
  - cbn. unfold json_dump_dict. rewrite <- list_fmap_compose. done.
  - cbn. unfold json_dump_dict. rewrite <- !list_fmap_compose.
    clear -Hnodup Hint. induction d as [|[k v] d IH]; cbn; [constructor|].
    apply NoDup_cons in Hnodup as [Hk Hnodup].
    apply Forall_cons in Hint as [[i Hi] Hint]. cbn in Hi. subst k.
    constructor; [|by apply IH].
    intros Hin. apply Hk. apply list_elem_of_fmap in Hin as ([k' v'] & Heq & Hin).
    cbn in Heq. apply list_elem_of_fmap. exists (k', v'). split; [|done].
    rewrite Forall_forall in Hint. destruct (Hint _ Hin) as [i' Hi']. cbn in Hi'.
    subst k'. cbn in Heq. injection Heq as Heq. apply (inj pretty) in Heq. by subst.
Qed.

Lemma dict_get_stringified (d : pydict) i :
  Forall (fun kv => ∃ i, kv.1 = KInt i) d ->
  dict_get (KStr (pretty i)) ((fun kv => (KStr (key_str kv.1), kv.2)) <$> d)
  = dict_get (KInt i) d.
Proof.
  induction 1 as [|[k v] d [j Hj] Hd IH]; cbn; [done|].
  cbn in Hj. subst k. cbn. destruct (decide (i = j)) as [->|Hne].
  - by rewrite !decide_True.
  - rewrite !decide_False; [done | congruence |].
    intros [= Heq]. by apply (inj pretty) in Heq.
Qed.

(** X14.  What a save and a reload do to the answers of one session.  For
    answers dictionaries keyed by indices, each index once, reloading the
    progress file just saved gives the same entries in the same order,
    each under the decimal numeral of its index: looking an answer up by
    the numeral finds what the index found before, and looking it up by
    the index finds nothing. *)
Theorem reload_files_answers_under_numerals s :
  (∀ sec, int_keyed (sec_get sec (user_answers (test_state s)))) ->
  let s' := load_progress true (save_progress false s) in
  ∀ sec,
    sec_get sec (user_answers (test_state s'))
    = (fun kv => (KStr (key_str kv.1), kv.2)) <$> sec_get sec (user_answers (test_state s))
    ∧ ∀ i,
        dict_get (KStr (pretty i)) (sec_get sec (user_answers (test_state s')))
        = dict_get (KInt i) (sec_get sec (user_answers (test_state s)))
        ∧ dict_get (KInt i) (sec_get sec (user_answers (test_state s'))) = None.
Proof.
  intros Hkeys s' sec.
  assert (Hans : sec_get sec (user_answers (test_state s'))
                 = json_load_dict (json_dump_dict (sec_get sec (user_answers (test_state s))))).
  { subst s'. by destruct sec. }
  rewrite Hans, json_round_trip_int_keyed by done.
  split; [done|]. intros i. split.
  - apply dict_get_stringified. apply Hkeys.
  - rewrite <- json_round_trip_int_keyed by done. apply json_load_no_int_key.
Qed.

Lemma reload_files_answers_under_numerals_witness :
  let s' := load_progress true (save_progress false math_sixth_question) in
  dict_get (KStr "5") (sec_get MATH (user_answers (test_state s'))) = Some "C".
Proof.
  intros s'.
  destruct (reload_files_answers_under_numerals math_sixth_question) with (sec := MATH)
    as [_ Hget].
  - intros sec.
    assert (Hua : user_answers (test_state math_sixth_question)
                  = PerSection [(KInt 0, "B")] [(KInt 5, "C")])
      by (vm_compute; reflexivity).
    rewrite Hua.
    destruct sec; (split; [apply NoDup_singleton | repeat constructor; by eexists]).
  - destruct (Hget 5) as [Hstr _]. subst s'.
    change (KStr "5") with (KStr (pretty 5)). rewrite Hstr. vm_compute. reflexivity.
Defined.

(** ** Scores, categories and the exported results *)

Lemma enumerate_from_length {A} (l : list A) n : length (enumerate_from n l) = length l.
Proof. revert n. induction l as [|x l IH]; intros n; cbn; [done | by rewrite IH]. Qed.

Lemma enumerate_from_snd {A} (l : list A) n iq :
  iq ∈ enumerate_from n l -> iq.2 ∈ l.
Proof.
  destruct iq as [i x]. rewrite enumerate_from_lookup. intros [_ Hx].
  by apply list_elem_of_lookup_2 in Hx.
Qed.

Lemma filter_length_le {A} (P Q : A -> Prop) `{∀ x, Decision (P x)} `{∀ x, Decision (Q x)}
    (l : list A) :
  (∀ x, x ∈ l -> P x -> Q x) -> length (filter P l) ≤ length (filter Q l).
Proof.
  induction l as [|x l IH]; intros Himp; [done|].
  rewrite !filter_cons.
  assert (IH' : length (filter P l) ≤ length (filter Q l)).
  { apply IH. intros y Hy. apply Himp. by right. }
  destruct (decide (P x)) as [HP|HP].
  - rewrite decide_True by (apply Himp; [left | done]). cbn. lia.
  - destruct (decide (Q x)); cbn; lia.
Qed.

Lemma filter_length_eq {A} (P Q : A -> Prop) `{∀ x, Decision (P x)} `{∀ x, Decision (Q x)}
    (l : list A) :
  (∀ x, x ∈ l -> P x <-> Q x) -> length (filter P l) = length (filter Q l).
Proof.
  intros Hiff. apply Nat.le_antisymm; apply filter_length_le; intros x Hx; by apply Hiff.
Qed.

(** Three ways, and no other, for a question that has an answer. *)
Lemma answers_partition (answers : pydict) (l : list (nat * question)) :
  (∀ iq, iq ∈ l -> is_Some (q_answer iq.2)) ->
  length (filter (fun iq => dict_get (KInt iq.1) answers = q_answer iq.2) l)
  + length (filter (fun iq => is_Some (dict_get (KInt iq.1) answers)
                              ∧ dict_get (KInt iq.1) answers ≠ q_answer iq.2) l)
  + length (filter (fun iq => dict_get (KInt iq.1) answers = None) l)
  = length l.
Proof.
  induction l as [|iq l IH]; intros Hans; [done|].
  assert (IH' := IH (fun x Hx => Hans x (list_elem_of_further _ _ _ Hx))).
  destruct (Hans iq (list_elem_of_here _ _)) as [ca Hca].
  rewrite !filter_cons. rewrite Hca.
  destruct (dict_get (KInt iq.1) answers) as [ua|] eqn:Hua.
  - rewrite (decide_False (P := Some ua = None)) by done.
    destruct (decide (Some ua = Some ca)) as [Heq|Hne].
    + rewrite decide_False by (intros [_ ?]; done). cbn. lia.
    + rewrite decide_True by (split; [by eexists | done]). cbn. lia.
  - rewrite (decide_False (P := None = Some ca)) by done.
    rewrite decide_False by (intros [[? ?] _]; done).
    rewrite decide_True by done. cbn. lia.
Qed.

Lemma total_incorrect_insert (weakest : gmap string Z) category :
  total_incorrect (<[category := (default 0 (weakest !! category) + 1)%Z]> weakest)
  = (total_incorrect weakest + 1)%Z.
Proof.
  unfold total_incorrect.
  rewrite <- insert_delete_eq.
  rewrite map_fold_insert_L; [|intros; lia | apply lookup_delete_eq].
  destruct (weakest !! category) as [count|] eqn:Hcount; cbn.
  - rewrite (map_fold_delete_L _ _ category count weakest); [lia | intros; lia | done].
  - rewrite delete_id by done. lia.
Qed.

Lemma total_incorrect_count_from (answers : pydict) (qs : list question)
    (weakest : gmap string Z) (n : nat) :
  total_incorrect
    (foldl (fun weakest iq =>
              if bool_decide (dict_get (KInt iq.1) answers ≠ None)
                 && bool_decide (dict_get (KInt iq.1) answers ≠ q_answer iq.2)
              then <[category_of iq.2 :=
                       (default 0 (weakest !! category_of iq.2) + 1)%Z]> weakest
              else weakest)
           weakest (enumerate_from n qs))
  = (total_incorrect weakest
     + Z.of_nat (length
         (filter (fun iq => is_Some (dict_get (KInt iq.1) answers)
                            ∧ dict_get (KInt iq.1) answers ≠ q_answer iq.2)
                 (enumerate_from n qs))))%Z.
Proof.
  revert weakest n. induction qs as [|q qs IH]; intros weakest n;
    cbn [enumerate_from foldl].
  - rewrite filter_nil. cbn. lia.
  - rewrite IH, filter_cons. cbn [fst snd].
    destruct (dict_get (KInt n) answers) as [ua|] eqn:Hget.
    + rewrite (bool_decide_eq_true_2 (Some ua ≠ None)) by done. cbn [andb].
      case_bool_decide as Hwrong.
      * rewrite decide_True by (split; [by eexists | done]).
        rewrite total_incorrect_insert. cbn [length]. lia.
      * rewrite decide_False by tauto. done.
    + rewrite (bool_decide_eq_false_2 (None ≠ None)) by tauto. cbn [andb].
      rewrite decide_False by (intros [[? ?] _]; done). done.
Qed.

(** X15.  Where every entry of the complete bank has a string as its
    answer, the results account for every question of the bank: each one
    is counted correct, or was answered otherwise and is counted once
    against its category, or was given no answer.  So the score and the
    unanswered questions never exceed the bank, and [show_results] raises
    the sum of the section's category counts by the size of the bank less
    the score less the unanswered. *)
Theorem results_account_for_every_question cfg w s sec :
  let bank_questions := load_questions cfg w sec true in
  let answers := sec_get sec (user_answers (test_state s)) in
  let unanswered :=
    length (filter (fun iq => dict_get (KInt iq.1) answers = None)
                   (enumerate bank_questions)) in
  let after := sec_get sec (weakest_categories (analytics (show_results cfg w s))) in
  let before := sec_get sec (weakest_categories (analytics s)) in
  (∀ q, q ∈ bank_questions -> is_Some (q_answer q)) ->
  count_correct answers bank_questions + unanswered ≤ length bank_questions
  ∧ total_incorrect after
    = (total_incorrect before
       + Z.of_nat (length bank_questions - count_correct answers bank_questions
                   - unanswered))%Z.
Proof.
  intros bank_questions answers unanswered after before Hanswers.
  assert (Hafter : after = count_incorrect answers bank_questions before).
  { subst after before answers bank_questions. by destruct sec. }
  assert (Hsum := answers_partition answers (enumerate bank_questions)).
  assert (Hlen : length (enumerate bank_questions) = length bank_questions)
    by apply enumerate_from_length.
  rewrite Hlen in Hsum. clear Hlen.
  assert (Hvalid : ∀ iq, iq ∈ enumerate bank_questions -> is_Some (q_answer iq.2)).
  { intros iq Hiq. by apply Hanswers, (enumerate_from_snd _ 0). }
  specialize (Hsum Hvalid).
  rewrite Hafter. subst unanswered. unfold count_correct, count_incorrect.
  unfold enumerate in *. rewrite total_incorrect_count_from.
  split; lia.
Qed.

Lemma example_bank_answers sec q :
  q ∈ load_questions default_config_data example_world sec true ->
  is_Some (q_id q) ∧ is_Some (q_answer q).
Proof.
  intros Hq.
  assert (Hall : Forall (fun q => is_Some (q_id q) ∧ is_Some (q_answer q))
                   (load_questions default_config_data example_world sec true)).
  { apply (bool_decide_unpack _). destruct sec; vm_compute; exact I. }
  rewrite Forall_forall in Hall. by apply Hall.
Defined.

Lemma results_account_for_every_question_witness :
  let s := math_sixth_question in
  count_correct (sec_get MATH (user_answers (test_state s)))
    (load_questions default_config_data example_world MATH true)
  + 7 ≤ 8.
Proof.
  intros s.
  destruct (results_account_for_every_question default_config_data example_world
              s MATH) as [Hle _].
  - intros q Hq. exact (proj2 (example_bank_answers MATH q Hq)).
  - assert (Hun : length (filter (fun iq => dict_get (KInt iq.1)
                     (sec_get MATH (user_answers (test_state s))) = None)
                     (enumerate (load_questions default_config_data example_world MATH true)))
                  = 7) by (vm_compute; reflexivity).
    rewrite Hun in Hle.
    assert (Hlen : length (load_questions default_config_data example_world MATH true) = 8)
      by (vm_compute; reflexivity).
    rewrite Hlen in Hle. exact Hle.
Defined.

Lemma detailed_correct_iff (answers : pydict) iq :
  bool_decide (default "N/A" (dict_get (KInt iq.1) answers) = default "N/A" (q_answer iq.2))
  = true
  <-> default "N/A" (dict_get (KInt iq.1) answers) = default "N/A" (q_answer iq.2).
Proof. apply bool_decide_eq_true. Qed.

Lemma section_results_score (answers : pydict) (all_questions : list question) :
  ResultsFile.score (section_results_of (detailed_answers_of answers all_questions))
  = length (filter (fun iq => default "N/A" (dict_get (KInt iq.1) answers)
                              = default "N/A" (q_answer iq.2))
                   (enumerate all_questions)).
Proof.
  unfold section_results_of, detailed_answers_of. cbn [ResultsFile.score].
  rewrite <- (length_fmap
    (fun iq => {| ResultsFile.question_id := default "N/A" (q_id iq.2);
                  ResultsFile.question_text := default "N/A" (q_question iq.2);
                  ResultsFile.options := default [] (q_options iq.2);
                  ResultsFile.user_answer := default "N/A" (dict_get (KInt iq.1) answers);
                  ResultsFile.correct_answer := default "N/A" (q_answer iq.2);
                  ResultsFile.is_correct :=
                    bool_decide (default "N/A" (dict_get (KInt iq.1) answers)
                                 = default "N/A" (q_answer iq.2));
                  ResultsFile.category := category_of iq.2 |})).
  induction (enumerate all_questions) as [|iq l IH]; [done|].
  cbn [map fmap list_fmap]. rewrite !filter_cons. cbn [ResultsFile.is_correct].
  destruct (decide (default "N/A" (dict_get (KInt iq.1) answers)
                    = default "N/A" (q_answer iq.2))) as [Heq|Hne].
  - rewrite decide_True by (by apply bool_decide_eq_true). cbn. by rewrite IH.
  - rewrite decide_False by (by rewrite bool_decide_eq_true). exact IH.
Qed.

(** X16.  The exported results, where every entry of the complete
    banks has a string as its id and as its answer.  With a file name
    chosen, [save_results] writes, for each section, one detailed answer
    per question of the complete bank, in order, with the question's id
    and correct answer, and a score that is never below the score of the
    results page and never above the size of the bank; the two scores are
    equal when no question of the bank has "N/A" as its answer, the text
    the export puts for a question left unanswered.  With no file name
    nothing is written. *)
Theorem exported_score_matches_results cfg w filename now s :
  filename ≠ "" ->
  (∀ sec q, q ∈ load_questions cfg w sec true ->
     is_Some (q_id q) ∧ is_Some (q_answer q)) ->
  save_results cfg w "" now s = None
  ∧ ∃ r, save_results cfg w filename now s = Some r
      ∧ ResultsFile.timestamp r = now
      ∧ ∀ sec,
          let bank_questions := load_questions cfg w sec true in
          let answers := sec_get sec (user_answers (test_state s)) in
          let exported :=
            match sec with
            | RW => ResultsFile.reading_writing_section r
            | MATH => ResultsFile.math_section r
            end in
          ResultsFile.total_questions exported = length bank_questions
          ∧ Some <$> (ResultsFile.question_id <$> ResultsFile.detailed_answers exported)
            = q_id <$> bank_questions
          ∧ Some <$> (ResultsFile.correct_answer <$> ResultsFile.detailed_answers exported)
            = q_answer <$> bank_questions
          ∧ count_correct answers bank_questions ≤ ResultsFile.score exported
          ∧ ResultsFile.score exported ≤ length bank_questions
          ∧ ((∀ q, q ∈ bank_questions -> q_answer q ≠ Some "N/A") ->
             ResultsFile.score exported = count_correct answers bank_questions).
Proof.
  intros Hname Hstrings. split; [done|].
  exists {| ResultsFile.timestamp := now;
            ResultsFile.reading_writing_section :=
              section_results_of
                (detailed_answers_of (at_RW (user_answers (test_state s)))
                   (load_questions cfg w RW true));
            ResultsFile.math_section :=
              section_results_of
                (detailed_answers_of (at_MATH (user_answers (test_state s)))
                   (load_questions cfg w MATH true)) |}.
  split; [unfold save_results; by rewrite bool_decide_eq_false_2|].
  split; [done|].
  intros sec bank_questions answers exported.
  assert (Hexp : exported = section_results_of (detailed_answers_of answers bank_questions)).
  { subst exported answers bank_questions. by destruct sec. }
  rewrite Hexp. clear Hexp exported. rewrite section_results_score.
  specialize (Hstrings sec). fold bank_questions in Hstrings.
  split_and!.
  - unfold section_results_of, detailed_answers_of. cbn [ResultsFile.total_questions].
    rewrite length_map. apply enumerate_from_length.
  - unfold section_results_of, detailed_answers_of, enumerate. cbn.
    clearbody bank_questions. generalize 0.
    induction bank_questions as [|q qs IH]; intros n; cbn; [done|].
    destruct (Hstrings q) as [[i Hi] _]; [left|]. rewrite Hi. cbn. f_equal.
    apply IH. intros q' Hq'. apply Hstrings. by right.
  - unfold section_results_of, detailed_answers_of, enumerate. cbn.
    clearbody bank_questions. generalize 0.
    induction bank_questions as [|q qs IH]; intros n; cbn; [done|].
    destruct (Hstrings q) as [_ [ca Hca]]; [left|]. rewrite Hca. cbn. f_equal.
    apply IH. intros q' Hq'. apply Hstrings. by right.
  - unfold count_correct. apply filter_length_le. intros iq _ Heq. by rewrite Heq.
  - rewrite <- (enumerate_from_length bank_questions 0). apply length_filter.
  - intros Hna. unfold count_correct. apply filter_length_eq. intros iq Hiq.
    pose proof (enumerate_from_snd _ _ _ Hiq) as Hq.
    destruct (Hstrings _ Hq) as [_ [ca Hca]].
    specialize (Hna _ Hq). rewrite Hca in Hna |- *.
    destruct (dict_get (KInt iq.1) answers) as [ua|]; cbn; split; congruence.
Qed.

Lemma exported_score_matches_results_witness :
  ∃ r, save_results default_config_data example_world "results.json"
         "2025-11-03T10:00:00" math_sixth_question = Some r
       ∧ ResultsFile.total_questions (ResultsFile.math_section r) = 8.
Proof.
  destruct (exported_score_matches_results default_config_data example_world
              "results.json" "2025-11-03T10:00:00" math_sixth_question)
    as (_ & r & Hr & _ & Hsec); [discriminate | exact example_bank_answers |].
  exists r. split; [exact Hr|].
  destruct (Hsec MATH) as (Htotal & _). rewrite Htotal. vm_compute. reflexivity.
Defined.

(** ** When the analytics change *)

Lemma show_question_analytics s : analytics (show_question s) = analytics s.
Proof. by destruct (show_question_cases s) as [-> | ->]. Qed.

Lemma start_test_section_analytics cfg w sec resume s :
  analytics (start_test_section cfg w sec resume s) = analytics s.
Proof.
  unfold start_test_section. cbv zeta.
  destruct resume, sec; cbn [negb]; repeat case_bool_decide; cbn;
    rewrite ?show_question_analytics; done.
Qed.

Lemma startup_analytics cfg w reply a p : analytics (startup cfg w reply a p) = a.
Proof.
  unfold startup. cbv zeta.
  assert (Hload : ∀ s, analytics (load_progress reply s) = analytics s).
  { intros s. unfold load_progress.
    destruct (progress s) as [| |data], reply; try done.
    cbv zeta. by destruct (jp_test_state data). }
  case_bool_decide; [unfold start_break; cbn; by rewrite Hload|].
  destruct (current_section _).
  - by rewrite start_test_section_analytics, Hload.
  - cbn. by rewrite Hload.
Qed.



(** ** Pages *)

Lemma pages_ok_test s : stacked s = test_widget -> pages_ok s.
Proof.
  intros Hpage. unfold pages_ok. rewrite Hpage.
  split_and!; [by intros [? | [? | ?]] | done | done].
Qed.

Lemma back_to_menu_pages s : pages_ok (back_to_menu s).
Proof. split_and!; done. Qed.

Lemma start_break_pages cfg s : pages_ok (start_break cfg s).
Proof. split_and!; try done. by intros [? | [? | ?]]. Qed.

Lemma show_results_pages cfg w s : pages_ok (show_results cfg w s).
Proof. split_and!; done. Qed.

Lemma start_test_section_pages cfg w sec resume s :
  timer s = false -> pages_ok (start_test_section cfg w sec resume s).
Proof.
  intros Htimer. unfold start_test_section. cbv zeta.
  destruct resume, sec; cbn [negb]; repeat case_bool_decide;
    first [ by apply pages_ok_test | split_and!; done ].
Qed.

Lemma navigate_pages val s :
  stacked s = test_widget -> pages_ok (show_question (set_current_index val s)).
Proof.
  intros Hpage. destruct (show_question_cases (set_current_index val s)) as [-> | ->].
  - apply pages_ok_test. unfold set_current_index. by case_decide.
  - apply back_to_menu_pages.
Qed.

Lemma submit_section_pages cfg w reply s :
  stacked s = test_widget ∨ (stacked s = break_widget ∧ pages_ok s) ->
  pages_ok (submit_section cfg w reply s).
Proof.
  intros Hpage. unfold submit_section. cbv zeta. destruct reply; [case_decide|].
  - apply start_break_pages.
  - apply show_results_pages.
  - destruct Hpage as [Hpage | [Hpage (_ & Hbreak & _)]].
    + by apply pages_ok_test.
    + unfold pages_ok. cbn. rewrite Hpage.
      split_and!; [by intros [? | [? | ?]] | intros _; by apply Hbreak | done].
Qed.

Lemma startup_pages cfg w reply a p : pages_ok (startup cfg w reply a p).
Proof.
  unfold startup. cbv zeta.
  assert (Htimer : timer (load_progress reply
            (App a initial_test_state [] 0 false menu_widget p)) = false).
  { unfold load_progress. cbn [progress]. destruct p as [| |data], reply; try done.
    cbv zeta. by destruct (jp_test_state data). }
  case_bool_decide; [apply start_break_pages|].
  destruct (current_section _).
  - by apply start_test_section_pages.
  - split_and!; done.
Qed.

Lemma act_pages cfg w a s :
  pages_ok s -> available a s -> pages_ok (act cfg w a s).
Proof.
  intros Hs Ha. pose proof Hs as (Hstopped & Hbreak & Hdone).
  assert (Hticking : timer s = true ->
            stacked s = test_widget ∨ (stacked s = break_widget ∧ pages_ok s)).
  { intros Htimer. destruct (stacked s) eqn:Hpage; try (by left); try (by right);
      rewrite Hstopped in Htimer by tauto; done. }
  destruct a as [e| |]; cbn [act available] in *.
  - destruct e as [|reply| | |checked|reply| | |reply]; cbn [step available] in *.
    + unfold start_full_test. cbv zeta. apply start_test_section_pages.
      cbn. apply Hstopped. by left.
    + unfold update_timer. destruct (_ <=? _)%Z.
      * apply submit_section_pages.
        destruct (Hticking Ha) as [Hpage | [Hpage _]]; [by left | right].
        split; [done|]. unfold pages_ok. cbn. rewrite Hpage.
        split_and!; [done | intros _; by apply Hbreak | done].
      * assert (Hframe : ∀ s1, stacked s1 = stacked s -> timer s1 = timer s ->
                  test_phase (test_state s1) = test_phase (test_state s) -> pages_ok s1).
        { intros s1 Hp Ht Hph. destruct (Hticking Ha) as [Hpage | [Hpage _]].
          - apply pages_ok_test. congruence.
          - unfold pages_ok. rewrite Hp, Hph, Hpage. split_and!; try done; [|by auto].
            by intros [? | [? | ?]]. }
        cbv zeta. destruct (_ || _); by apply Hframe.
    + unfold prev_question. case_bool_decide; [by apply navigate_pages | done].
    + unfold next_question. case_bool_decide; [by apply navigate_pages | done].
    + destruct Ha as [Hpage _]. unfold save_answer. destruct checked as [b|]; [|done].
      destruct (current_section _); [|done]. by apply pages_ok_test.
    + apply submit_section_pages. by left.
    + unfold start_next_section. cbv zeta. by apply start_test_section_pages.
    + apply back_to_menu_pages.
    + apply startup_pages.
  - assert (timer s = false) by (apply Hstopped; by left).
    split_and!; done.
  - assert (timer s = false) by (apply Hstopped; by right; right).
    split_and!; done.
Qed.


Lemma results_page_on_screen :
  on_screen default_config_data
    (act default_config_data example_world (Engine (Submit_section true))
       (act default_config_data example_world (Engine Start_next_section)
          (act default_config_data example_world (Engine (Submit_section true))
             (act default_config_data example_world (Engine Start_full_test)
                first_launch)))).
Proof.
  repeat (apply on_screen_act; [|by vm_compute]). apply on_screen_launch.
Defined.


(** ** Leaving the break *)


